(** * zgoubidoo: beam distributions, slices, mappings and the Objet2 store

    A shallow embedding of [zgoubidoo/commands/beam.py] (class [Beam]) and of
    [zgoubidoo/commands/objet.py] (class [Objet2]), with the parts of Python,
    numpy and pandas those two classes rely on.

    - Python exceptions are the [Raise] side of [result]; a method that
      mutates [self] returns the object it leaves behind next to its
      outcome, so what an exception leaves in the object stays visible.
    - Python floats are binary64 values, here Rocq's primitive floats.
    - numpy's global random generator and the file system read by
      [pandas.read_csv] are taken as they are given: the first as a state
      threaded through the sampler, the second as a function from paths. *)

From Stdlib Require Import ZArith List Lia Ascii.
From Stdlib Require Import Floats.PrimFloat Floats.SpecFloat Floats.FloatOps.
From stdpp Require Import base option list gmap strings.

Local Open Scope Z_scope.

(** A decimal float literal stands for the nearest binary64 value, as it
    does in Python. *)
#[local] Set Warnings "-inexact-float".

(** ** Python: exceptions, slices, numbers *)

Module Py.

(** A column label of a pandas table: a name, or the position numbering
    pandas gives the columns of a table built from a bare array. *)
Inductive label :=
| Name (s : string)
| Pos (i : Z).

#[global] Instance label_eq_dec : EqDecision label.
Proof. solve_decision. Defined.

Inductive exception :=
| ZgoubidooBeamException (m : string)
| ValueError
| TypeError
| IndexError
| KeyError (k : label)
| ZeroDivisionError
| OverflowError
| AssertionError
| OSError (m : string).

Inductive result (A : Type) :=
| Ok (a : A)
| Raise (e : exception).
Arguments Ok {A} a.
Arguments Raise {A} e.

#[global] Instance result_ret : MRet result := @Ok.
#[global] Instance result_bind : MBind result := fun A B f m =>
  match m with
  | Ok a => f a
  | Raise e => Raise e
  end.

(** [dict[k]]: the value, or [KeyError]. *)
Definition getitem {V} (d : gmap string V) (k : string) : result V :=
  match d !! k with
  | Some v => Ok v
  | None => Raise (KeyError (Name k))
  end.

(** [dict.get(k, dflt)]. *)
Definition get {V} (d : gmap string V) (k : string) (dflt : V) : V :=
  default dflt (d !! k).

(** One bound of a slice over a sequence of [len] items, as
    [slice.indices] resolves it: a negative bound counts from the end, and
    the outcome is clamped to [0 .. len]. *)
Definition slice_bound (len : nat) (i : Z) : nat :=
  Z.to_nat (Z.min (Z.max 0 (if i <? 0 then i + Z.of_nat len else i)) (Z.of_nat len)).

(** [l[start:stop]]. *)
Definition slice {A} (l : list A) (start stop : Z) : list A :=
  let a := slice_bound (length l) start in
  let b := slice_bound (length l) stop in
  take (b - a)%nat (drop a l).

(** [l[:n]], where [n] may be [None]. *)
Definition slice_to {A} (l : list A) (n : option Z) : list A :=
  match n with
  | None => l
  | Some n => slice l 0 n
  end.

(** [list(range(0, n))]. *)
Definition range0 (n : Z) : list Z := Z.of_nat <$> seq 0 (Z.to_nat n).

(** A Python number: an [int] of any size or a [float]. *)
Inductive num :=
| Int (z : Z)
| Float (f : float).

(** [float(z)]: the nearest binary64 value, ties to even; an [int] beyond
    the range of binary64 raises. *)
Definition Z2float (z : Z) : float := SF2Prim (binary_normalize prec emax z 0 false).

Definition float_of_int (z : Z) : result float :=
  let f := Z2float z in
  if is_infinity f then Raise OverflowError else Ok f.

Definition to_float (x : num) : result float :=
  match x with
  | Int z => float_of_int z
  | Float f => Ok f
  end.

(** [-x]. *)
Definition neg (x : num) : num :=
  match x with
  | Int z => Int (- z)
  | Float f => Float (- f)%float
  end.

(** [x + y] and [x * y]: exact on two [int]s, otherwise the binary64
    operation after converting an [int] operand. *)
Definition add (x y : num) : result num :=
  match x, y with
  | Int a, Int b => Ok (Int (a + b))
  | _, _ => a ← to_float x; b ← to_float y; Ok (Float (a + b)%float)
  end.

Definition mul (x y : num) : result num :=
  match x, y with
  | Int a, Int b => Ok (Int (a * b))
  | _, _ => a ← to_float x; b ← to_float y; Ok (Float (a * b)%float)
  end.

Definition is_zero (x : num) : bool :=
  match x with
  | Int z => z =? 0
  | Float f => (f =? 0)%float
  end.

(** [x / y], true division: always a [float]; a zero divisor of either
    kind raises.  Two [int]s are divided after conversion, which is the
    correctly rounded quotient while both are below [2^53] in magnitude. *)
Definition truediv (x y : num) : result num :=
  if is_zero y then Raise ZeroDivisionError
  else a ← to_float x; b ← to_float y; Ok (Float (a / b)%float).

(** [x ** 2]: exact on an [int]; on a [float] the square, and
    [OverflowError] when a finite operand has no finite square. *)
Definition pow2 (x : num) : result num :=
  match x with
  | Int z => Ok (Int (z * z))
  | Float f =>
      let s := (f * f)%float in
      if is_infinity s && negb (is_infinity f) then Raise OverflowError
      else Ok (Float s)
  end.

End Py.
Import Py.

(** ** numpy arrays and pandas tables *)

Module Np.

(** An array of dimension 0, 1 or 2.  A 2-D array carries its number of
    columns, which an array without rows still has. *)
Inductive ndarray :=
| Array0
| Array1 (l : list float)
| Array2 (ncols : nat) (rows : list (list float)).

(** [a.shape[0]] of a 2-D array, the length of a 1-D one. *)
Definition shape0 (a : ndarray) : nat :=
  match a with
  | Array0 => 0%nat
  | Array1 l => length l
  | Array2 _ rows => length rows
  end.

Definition size (a : ndarray) : nat :=
  match a with
  | Array0 => 1%nat
  | Array1 l => length l
  | Array2 _ rows => length (concat rows)
  end.

Definition ravel (a : ndarray) : list float :=
  match a with
  | Array0 => []
  | Array1 l => l
  | Array2 _ rows => concat rows
  end.

(** [a.reshape(1, n)]. *)
Definition reshape_1 (n : nat) (a : ndarray) : result ndarray :=
  if decide (size a = n) then Ok (Array2 n [ravel a]) else Raise ValueError.

(** [np.zeros((r, c))]. *)
Definition zeros (r c : nat) : ndarray := Array2 c (replicate r (replicate c 0%float)).

(** [a[:, j] = v] on a 2-D array. *)
Definition set_column (a : ndarray) (j : nat) (v : float) : result ndarray :=
  match a with
  | Array2 c rows =>
      if decide (j < c)%nat then Ok (Array2 c ((fun r => <[j := v]> r) <$> rows))
      else Raise IndexError
  | _ => Raise IndexError
  end.

(** [np.concatenate((a, b), axis=0)]: the dimensions agree, none is 0,
    and 2-D arrays have the same number of columns. *)
Definition concatenate0 (a b : ndarray) : result ndarray :=
  match a, b with
  | Array1 l1, Array1 l2 => Ok (Array1 (l1 ++ l2))
  | Array2 c1 r1, Array2 c2 r2 =>
      if decide (c1 = c2) then Ok (Array2 c1 (r1 ++ r2)) else Raise ValueError
  | _, _ => Raise ValueError
  end.

(** [a[i, j]]. *)
Definition entry (a : ndarray) (i j : nat) : option float :=
  match a with
  | Array2 _ rows => r ← rows !! i; r !! j
  | _ => None
  end.

End Np.
Import Np.

Module Pd.

(** A table: its column labels and its rows, each row holding one cell
    per column. *)
Record DataFrame := { columns : list label; values : list (list float) }.

Definition wf (d : DataFrame) : Prop :=
  Forall (fun r => length r = length (columns d)) (values d).

(** [d.shape[0]], also [len(d)]. *)
Definition shape0 (d : DataFrame) : nat := length (values d).

(** [d.iloc[start:stop]]. *)
Definition iloc (d : DataFrame) (start stop : Z) : DataFrame :=
  {| columns := columns d; values := Py.slice (values d) start stop |}.

(** [d[:n]]. *)
Definition rows_to (d : DataFrame) (n : option Z) : DataFrame :=
  {| columns := columns d; values := Py.slice_to (values d) n |}.

(** [d.columns = new]: a relabelling, refused when the number of labels
    differs from the number of columns. *)
Definition set_columns (d : DataFrame) (new : list label) : result DataFrame :=
  if decide (length new = length (columns d))
  then Ok {| columns := new; values := values d |}
  else Raise ValueError.

Definition column_index (c : label) (cols : list label) : option nat :=
  fst <$> list_find (fun x => x = c) cols.

(** [d[c] = v] for a scalar [v]: overwrites the column, or adds it last. *)
Definition setitem (d : DataFrame) (c : label) (v : float) : DataFrame :=
  match column_index c (columns d) with
  | Some i => {| columns := columns d; values := (fun r => <[i := v]> r) <$> values d |}
  | None => {| columns := columns d ++ [c]; values := (fun r => r ++ [v]) <$> values d |}
  end.

(** [d[c] += v]. *)
Definition iadd (d : DataFrame) (c : label) (v : float) : result DataFrame :=
  match column_index c (columns d) with
  | Some i =>
      Ok {| columns := columns d;
            values := (fun r => alter (fun x => (x + v)%float) i r) <$> values d |}
  | None => Raise (KeyError c)
  end.

(** [d[[c1, ..., cn]]]: the listed columns, in the listed order. *)
Definition getitem_list (d : DataFrame) (cs : list label) : result DataFrame :=
  idx ← mapM (fun c => match column_index c (columns d) with
                       | Some i => Ok i
                       | None => Raise (KeyError c)
                       end) cs;
  Ok {| columns := cs;
        values := (fun r => (fun i => nth i r nan) <$> idx) <$> values d |}.

(** [d.values]. *)
Definition to_numpy (d : DataFrame) : ndarray := Array2 (length (columns d)) (values d).

End Pd.
Import Pd.

(** ** Objects handed across the API *)

(** What a caller may pass where the code takes "particles" or "a
    distribution": [None], a number, a nested list of coordinates, an array
    or a table. *)
Inductive pyobj :=
| PyNone
| PyNum (x : num)
| PyList (rows : list (list float))
| PyArray (a : ndarray)
| PyFrame (d : DataFrame).

(** [np.asarray(p)].  [None] and a number give a 0-d array; an empty list a
    1-D array without items; a nested list a 2-D array when its rows have
    one length, and [ValueError] otherwise (numpy 1.24 and later). *)
Definition asarray (p : pyobj) : result ndarray :=
  match p with
  | PyNone | PyNum _ => Ok Array0
  | PyList [] => Ok (Array1 [])
  | PyList (r :: rows) =>
      if decide (Forall (fun r' => length r' = length r) rows)
      then Ok (Array2 (length r) (r :: rows))
      else Raise ValueError
  | PyArray a => Ok a
  | PyFrame d => Ok (to_numpy d)
  end.

(** [np.append(a, p, axis=0)]. *)
Definition np_append (a p : pyobj) : result ndarray :=
  x ← asarray a; y ← asarray p; concatenate0 x y.

(** [pd.DataFrame(p)].  A bare array or list gets positional labels; short
    rows of a nested list are padded with NaN; [None] gives the table
    without rows or columns; a number is refused. *)
Definition pd_DataFrame (p : pyobj) : result DataFrame :=
  match p with
  | PyNone => Ok {| columns := []; values := [] |}
  | PyNum _ => Raise ValueError
  | PyList rows =>
      let w := foldr (fun r m => Nat.max (length r) m) 0%nat rows in
      Ok {| columns := Pos <$> range0 (Z.of_nat w);
            values := (fun r => r ++ replicate (w - length r) nan) <$> rows |}
  | PyArray Array0 => Raise ValueError
  | PyArray (Array1 l) => Ok {| columns := [Pos 0]; values := (fun v => [v]) <$> l |}
  | PyArray (Array2 c rows) => Ok {| columns := Pos <$> range0 (Z.of_nat c); values := rows |}
  | PyFrame d => Ok d
  end.

(** ** [Objet2]: the population store *)

Module Objet2.

Record t := { LABEL1 : string; _PARTICULES : pyobj }.

Definition set_PARTICULES (self : t) (p : pyobj) : t :=
  {| LABEL1 := LABEL1 self; _PARTICULES := p |}.

(** [post_init]. *)
Definition post_init (label1 : string) : t :=
  {| LABEL1 := label1; _PARTICULES := PyNone |}.

(** The array the getter builds for an unset store: [np.zeros((1, 7))]
    with columns 5 (D) and 6 (IEX) set to [1.0]. *)
Definition default_PARTICULES : result ndarray :=
  a ← set_column (zeros 1 7) 5 1%float; set_column a 6 1%float.

(** The [PARTICULES] property: the object as the read leaves it, and the
    value read. *)
Definition PARTICULES (self : t) : t * result pyobj :=
  let r :=
    match _PARTICULES self with
    | PyList rows =>
        a ← asarray (PyList rows); b ← reshape_1 7 a; Ok (set_PARTICULES self (PyArray b))
    | _ => Ok self
    end in
  match r with
  | Raise e => (self, Raise e)
  | Ok self1 =>
      match _PARTICULES self1 with
      | PyNone =>
          match default_PARTICULES with
          | Ok a => let self2 := set_PARTICULES self1 (PyArray a) in
                    (self2, Ok (_PARTICULES self2))
          | Raise e => (self1, Raise e)
          end
      | p => (self1, Ok p)
      end
  end.

(** [clear]. *)
Definition clear (self : t) : t := set_PARTICULES self PyNone.

Definition coordinates : list label :=
  [Name "Y"; Name "T"; Name "Z"; Name "P"; Name "D"].

Definition layout : list label :=
  [Name "Y"; Name "T"; Name "Z"; Name "P"; Name "X"; Name "D"; Name "IEX"].

(** The body of the [elif] branch of [add]: on a copy of the table, [X]
    and [IEX] are added, [D] is shifted, and the seven columns are read
    out in the store's order. *)
Definition normalize (p : DataFrame) : result ndarray :=
  let p := setitem p (Name "X") 0%float in
  let p := setitem p (Name "IEX") 1%float in
  p ← iadd p (Name "D") 1%float;
  q ← getitem_list p layout;
  Ok (to_numpy q).

(** [add] (also [+=]).  Of the objects of [pyobj] only a table has the
    attribute [columns] that the first test looks for. *)
Definition add (self : t) (p : pyobj) : t * result unit :=
  match _PARTICULES self with
  | PyNone =>
      match p with
      | PyFrame d =>
          if decide (columns d = coordinates) then
            match normalize d with
            | Ok a => (set_PARTICULES self (PyArray a), Ok ())
            | Raise e => (self, Raise e)
            end
          else (self, Ok ())
      | _ => (set_PARTICULES self p, Ok ())
      end
  | _ =>
      match np_append (_PARTICULES self) p with
      | Ok a => (set_PARTICULES self (PyArray a), Ok ())
      | Raise e => (self, Raise e)
      end
  end.

(** The row a read of an unset store yields. *)
Definition default_row : list float := [0; 0; 0; 0; 0; 1; 1]%float.

(** A row of five coordinates in the store's layout. *)
Definition normalized_row (r : list float) : list float :=
  match r with
  | [cy; ct; cz; cp; cd] => [cy; ct; cz; cp; 0; cd + 1; 1]%float
  | _ => r
  end.

End Objet2.

(** ** The parametric mapping generator *)

Module ParametricMapping.

(** Modelled from the spec: [zgoubidoo/input.py], which defines
    [ParametricMapping] and its [combinations], is not among the sources.
    The spec (Mapping Generator) gives the expansion of an ordered
    sequence of axes, each a name with an ordered list of values, as their
    Cartesian product in registration order: one single-assignment
    dictionary over all the names per point, the first axis varying
    slowest, as many points as the product of the lengths. *)
Fixpoint combinations (axes : list (string * list Z)) : list (gmap string Z) :=
  match axes with
  | [] => [∅]
  | (name, vals) :: rest =>
      v ← vals; m ← combinations rest; [<[name := v]> m]
  end.

End ParametricMapping.

(** ** [Beam] *)

Module Beam.

Record t := {
  LABEL1 : string;
  SLICE : Z;
  REFERENCE : Z;
  _slices : Z;
  _distribution : option DataFrame;
}.

Definition set_distribution (self : t) (d : option DataFrame) : t :=
  {| LABEL1 := LABEL1 self; SLICE := SLICE self; REFERENCE := REFERENCE self;
     _slices := _slices self; _distribution := d |}.

Definition invalid_number : string :=
  "Trying to initialize a beam distribution with invalid number of particles.".

Definition invalid_argument : string :=
  "Invalid argument for a twiss distribution.".

(** [clear]. *)
Definition clear (self : t) : t := set_distribution self None.

(** The [active_slice] property.  [len(None)] is the [TypeError] the
    property turns into [None]; [n_tot / self._slices] raises on a zero
    slice count, and its floor is the integer quotient (the table is far
    shorter than [2^53] rows, so the float quotient loses nothing). *)
Definition active_slice (self : t) : result (option DataFrame) :=
  match _distribution self with
  | None => Ok None
  | Some dist =>
      let n_tot := Z.of_nat (Pd.shape0 dist) in
      if decide (_slices self = 0) then Raise ZeroDivisionError else
      let n_slices := n_tot `div` _slices self in
      let d := iloc dist (SLICE self * n_slices) ((SLICE self + 1) * n_slices) in
      d ← set_columns d Objet2.coordinates;
      if decide (Pd.shape0 d = 0%nat) then Ok None else Ok (Some d)
  end.

(** The [mappings] property. *)
Definition mappings (self : t) : list (gmap string Z) :=
  if decide (REFERENCE self = 1) then
    [ {[ (LABEL1 self +:+ ".REFERENCE")%string := 1 ]} ]
  else
    ParametricMapping.combinations
      [ ((LABEL1 self +:+ ".SLICE")%string, range0 (_slices self)) ].

(** The arguments of [generate_from_5d_sigma_matrix] besides [n]. *)
Record sigma := {
  x : num; px : num; y : num; py : num; dpp : num;
  s11 : num; s12 : num; s13 : num; s14 : num; s15 : num;
  s22 : num; s23 : num; s24 : num; s25 : num;
  s33 : num; s34 : num; s35 : num;
  s44 : num; s45 : num;
  dpprms : num;
  matrix : option ndarray;
}.

(** The array the [else] branch of [generate_from_5d_sigma_matrix]
    builds, the lower triangle mirrored from the upper one; numpy stores
    the entries as binary64. *)
Definition sigma_matrix (a : sigma) (s55 : num) : result ndarray :=
  let s21 := s12 a in
  let s31 := s13 a in
  let s32 := s23 a in
  let s41 := s14 a in
  let s42 := s24 a in
  let s43 := s34 a in
  let s51 := s15 a in
  let s52 := s25 a in
  let s53 := s35 a in
  let s54 := s45 a in
  rows ← mapM (mapM to_float)
    [ [s11 a; s12 a; s13 a; s14 a; s15 a];
      [s21; s22 a; s23 a; s24 a; s25 a];
      [s31; s32; s33 a; s34 a; s35 a];
      [s41; s42; s43; s44 a; s45 a];
      [s51; s52; s53; s54; s55] ];
  Ok (Array2 5 rows).

(** The names [from_twiss_parameters] accepts. *)
Definition keys : gset string :=
  {[ "X"; "PX"; "Y"; "PY"; "DPP"; "DPPRMS";
     "BETAX"; "ALPHAX"; "BETAY"; "ALPHAY"; "EMITX"; "EMITY" ]}.

(** What [from_twiss_parameters] computes between its check of the names
    and its call of [from_5d_sigma_matrix], in evaluation order. *)
Definition twiss_sigma (kwargs : gmap string num) : result sigma :=
  let betax := get kwargs "BETAX" (Int 1) in
  let alphax := get kwargs "ALPHAX" (Int 0) in
  a2 ← pow2 alphax; a2 ← add (Int 1) a2; gammax ← truediv a2 betax;
  let betay := get kwargs "BETAY" (Int 1) in
  let alphay := get kwargs "ALPHAY" (Int 0) in
  a2 ← pow2 alphay; a2 ← add (Int 1) a2; gammay ← truediv a2 betay;
  e ← getitem kwargs "EMITX"; s11 ← mul betax e;
  e ← getitem kwargs "EMITX"; s12 ← mul (neg alphax) e;
  e ← getitem kwargs "EMITX"; s22 ← mul gammax e;
  e ← getitem kwargs "EMITY"; s33 ← mul betay e;
  e ← getitem kwargs "EMITY"; s34 ← mul (neg alphay) e;
  e ← getitem kwargs "EMITY"; s44 ← mul gammay e;
  Ok {| x := get kwargs "X" (Int 0);
        px := get kwargs "PX" (Int 0);
        y := get kwargs "Y" (Int 0);
        py := get kwargs "PY" (Int 0);
        dpp := get kwargs "DPP" (Int 0);
        dpprms := get kwargs "DPPRMS" (Int 0);
        s11 := s11; s12 := s12; s22 := s22;
        s33 := s33; s34 := s34; s44 := s44;
        s13 := Int 0; s14 := Int 0; s15 := Int 0;
        s23 := Int 0; s24 := Int 0; s25 := Int 0;
        s35 := Int 0; s45 := Int 0;
        matrix := None |}.

(** [os.path.join(path, file)] on POSIX paths. *)
Definition os_path_join (path file : string) : string :=
  if String.prefix "/" file then file
  else if decide (path = ""%string) then file
  else if String.prefix "/" (String.rev path) then (path +:+ file)%string
  else (path +:+ "/" +:+ file)%string.

Section World.

(** [pd.read_csv]: the table parsed from the file at a path, or the
    exception pandas raises there (no such file, nothing to parse). *)
Variable read_csv : string → result DataFrame.

(** The state of numpy's random generator, and the sampler
    [multivariate_normal(mean, cov, size)] drawing [size] rows from it. *)
Variable rng : Type.
Variable multivariate_normal :
  rng → list float → ndarray → nat → rng * list (list float).

(** [generate_from_file]. *)
Definition generate_from_file (file path : string) (n : option Z) : result DataFrame :=
  d ← read_csv (os_path_join path file); Ok (rows_to d n).

(** The test closing [_initialize_distribution]. *)
Definition check (self : t) (d : DataFrame) : t * result unit :=
  let self := set_distribution self (Some d) in
  if decide (Pd.shape0 d = 0%nat)
  then (self, Raise (ZgoubidooBeamException invalid_number))
  else (self, Ok ()).

(** [_initialize_distribution(distribution, *args, **kwargs)]. *)
Definition _initialize_distribution (self : t) (distribution : option DataFrame)
    (args : list pyobj) (kwargs : gmap string string) : t * result unit :=
  match distribution with
  | Some d => check self d
  | None =>
      let r := match args with
               | [] => Raise IndexError
               | a :: _ => pd_DataFrame a
               end in
      match r with
      | Ok d => check self d
      | Raise IndexError | Raise ValueError =>
          match kwargs !! "filename" with
          | Some filename =>
              match generate_from_file filename (get kwargs "path" ".") None with
              | Ok d => check self d
              | Raise e => (self, Raise e)
              end
          | None => (self, Ok ())
          end
      | Raise e => (self, Raise e)
      end
  end.

(** [post_init]. *)
Definition post_init (label1 : string) (distribution : option DataFrame) (slices : Z)
    (args : list pyobj) (kwargs : gmap string string) : t * result unit :=
  let self := {| LABEL1 := label1; SLICE := 0; REFERENCE := 0;
                 _slices := slices; _distribution := None |} in
  _initialize_distribution self distribution args kwargs.

(** [from_file]. *)
Definition from_file (self : t) (file : string) (n : option Z) (path : string)
    : t * result unit :=
  match generate_from_file file path n with
  | Ok d => _initialize_distribution self (Some d) [] ∅
  | Raise e => (self, Raise e)
  end.

(** The call [generator(mean, cov, int(n))]: numpy stores the mean as
    binary64 and refuses a negative size. *)
Definition generator (g : rng) (mean : list num) (cov : ndarray) (n : Z)
    : rng * result ndarray :=
  match mapM to_float mean with
  | Raise e => (g, Raise e)
  | Ok mean =>
      if n <? 0 then (g, Raise ValueError)
      else let '(g, rows) := multivariate_normal g mean cov (Z.to_nat n) in
           (g, Ok (Array2 (length mean) rows))
  end.

(** [generate_from_5d_sigma_matrix]. *)
Definition generate_from_5d_sigma_matrix (g : rng) (n : Z) (a : sigma)
    : rng * result ndarray :=
  match pow2 (dpprms a) with
  | Raise e => (g, Raise e)
  | Ok s55 =>
      match matrix a with
      | Some m =>
          match m with
          | Array2 5 rows =>
              if decide (length rows = 5%nat)
              then generator g [x a; px a; y a; py a; dpp a] m n
              else (g, Raise AssertionError)
          | _ => (g, Raise AssertionError)
          end
      | None =>
          match sigma_matrix a s55 with
          | Ok cov => generator g [x a; px a; y a; py a; dpp a] cov n
          | Raise e => (g, Raise e)
          end
      end
  end.

(** [from_5d_sigma_matrix]. *)
Definition from_5d_sigma_matrix (self : t) (g : rng) (n : Z) (a : sigma)
    : t * rng * result unit :=
  match generate_from_5d_sigma_matrix g n a with
  | (g, Ok distribution) =>
      match pd_DataFrame (PyArray distribution) with
      | Ok d => let '(self, r) := _initialize_distribution self (Some d) [] ∅ in
                (self, g, r)
      | Raise e => (self, g, Raise e)
      end
  | (g, Raise e) => (self, g, Raise e)
  end.

(** [from_twiss_parameters]. *)
Definition from_twiss_parameters (self : t) (g : rng) (n : Z) (kwargs : gmap string num)
    : t * rng * result unit :=
  if decide (Exists (fun k => k ∉ keys) (map_to_list kwargs).*1) then
    (self, g, Raise (ZgoubidooBeamException invalid_argument))
  else
    match twiss_sigma kwargs with
    | Ok a => from_5d_sigma_matrix self g n a
    | Raise e => (self, g, Raise e)
    end.

End World.

(** The exception of a distribution without rows. *)
Definition empty_distribution : exception := ZgoubidooBeamException invalid_number.

(** The beam with its [SLICE] parameter set to [i]. *)
Definition with_SLICE (self : t) (i : Z) : t :=
  {| LABEL1 := LABEL1 self; SLICE := i; REFERENCE := REFERENCE self;
     _slices := _slices self; _distribution := _distribution self |}.

(** The rows a view shows; "no data" shows none. *)
Definition view_rows (v : option DataFrame) : list (list float) :=
  match v with
  | Some d => values d
  | None => []
  end.

(** The window [active_slice] cuts out of the population. *)
Definition window (self : t) (dist : DataFrame) : list (list float) :=
  let n := Z.of_nat (Pd.shape0 dist) `div` _slices self in
  Py.slice (values dist) (SLICE self * n) ((SLICE self + 1) * n).

(** The partition law of a population cut into [k] slices of
    [n = floor(M / k)] rows:
    - the view of index [i] shows rows [i * n .. (i + 1) * n) of the
      population, its row [j] being row [i * n + j];
    - the views of indices [0 .. k - 1], one after the other, are the
      first [k * n] rows;
    - two places of two views hold the same row of the population only
      when they are the same place of the same view, every row before
      [k * n] has a place in a view, and no place of a view holds a row
      from [k * n] on;
    - the rows from [k * n] on, left out of every view, number
      [M mod k]. *)
Definition partition_law (self : t) (dist : DataFrame) : Prop :=
  let rows := values dist in
  let k := Z.to_nat (_slices self) in
  let n := Z.to_nat (Z.of_nat (length rows) `div` _slices self) in
  (∀ i : nat, (i < k)%nat →
     ∃ v, active_slice (with_SLICE self (Z.of_nat i)) = Ok v
          ∧ view_rows v = take n (drop (i * n) rows)
          ∧ ∀ j : nat, (j < n)%nat → view_rows v !! j = rows !! (i * n + j)%nat)
  ∧ (∃ vs, mapM (fun i => active_slice (with_SLICE self i)) (range0 (_slices self)) = Ok vs
           ∧ concat (view_rows <$> vs) = take (k * n) rows)
  ∧ (∀ i1 j1 i2 j2 : nat, (j1 < n)%nat → (j2 < n)%nat →
       (i1 * n + j1 = i2 * n + j2)%nat → i1 = i2 ∧ j1 = j2)
  ∧ (∀ p : nat, (p < k * n)%nat →
       ∃ i j : nat, (i < k)%nat ∧ (j < n)%nat ∧ p = (i * n + j)%nat)
  ∧ (∀ i j : nat, (i < k)%nat → (j < n)%nat → (i * n + j < k * n)%nat)
  ∧ (k * n ≤ length rows)%nat
  ∧ Z.of_nat (length rows - k * n) = Z.of_nat (length rows) `mod` _slices self.

(** The keyword arguments [BETAX=b, ALPHAX=a, EMITX=e] and the same for
    the Y plane. *)
Definition twiss_kwargs (b a e : num) : gmap string num :=
  list_to_map [ ("BETAX", b); ("ALPHAX", a); ("EMITX", e);
                ("BETAY", b); ("ALPHAY", a); ("EMITY", e) ]%string.

(** The matrix [from_twiss_parameters] hands to the sampler. *)
Definition twiss_matrix (kwargs : gmap string num) : result ndarray :=
  a ← twiss_sigma kwargs; s55 ← pow2 (dpprms a); sigma_matrix a s55.


(** The [objet] property: a fresh [Objet2] named after the beam, handed the
    active slice.  The class of the object is the beam's [objet] argument,
    here its default [Objet2].  The rigidity [BORO] it receives is read from
    the kinematics first: [brho] is the outcome of that read, a quantity or
    the exception it raised; the quantity is no part of the store. *)
Definition objet {Q} (brho : result Q) (self : t) : result Objet2.t :=
  boro ← brho;
  let o := Objet2.post_init (LABEL1 self) in
  v ← active_slice self;
  match Objet2.add o (match v with Some d => PyFrame d | None => PyNone end) with
  | (o, Ok _) => Ok o
  | (_, Raise e) => Raise e
  end.

(** The object [__str__] turns into text: the beam's [objet], cleared first
    when [REFERENCE] is 1. *)
Definition printed {Q} (brho : result Q) (self : t) : result Objet2.t :=
  if decide (REFERENCE self = 1) then o ← objet brho self; Ok (Objet2.clear o)
  else objet brho self.

End Beam.

(** ** A world to run the beam in *)

Module Example.

Import Beam.

(** Two files: a table of three particles, and a header without rows. *)
Definition example_read_csv (path : string) : result DataFrame :=
  if decide (path = "./beam.csv"%string) then
    Ok {| columns := Objet2.coordinates;
          values := [[1; 0; 0; 0; 0]; [2; 0; 0; 0; 0]; [3; 0; 0; 0; 0]]%float |}
  else if decide (path = "./empty.csv"%string) then
    Ok {| columns := Objet2.coordinates; values := [] |}
  else Raise (OSError "No such file or directory").

(** A sampler without spread: every draw is the mean; the generator
    state counts the calls. *)
Definition example_sampler (g : nat) (mean : list float) (cov : ndarray) (n : nat)
    : nat * list (list float) :=
  (S g, replicate n mean).

Definition example_beam : t :=
  {| LABEL1 := "BEAM"; SLICE := 0; REFERENCE := 0; _slices := 1; _distribution := None |}.

(** A covariance handed in ready made, and arguments that carry it. *)
Definition example_identity : ndarray :=
  Array2 5 [[1; 0; 0; 0; 0]; [0; 1; 0; 0; 0]; [0; 0; 1; 0; 0];
            [0; 0; 0; 1; 0]; [0; 0; 0; 0; 1]]%float.

Definition example_sigma (m : ndarray) : sigma :=
  {| x := Int 0; px := Int 0; y := Int 0; py := Int 0; dpp := Int 0;
     s11 := Float 4; s12 := Int 0; s13 := Int 0; s14 := Int 0; s15 := Int 0;
     s22 := Float 4; s23 := Int 0; s24 := Int 0; s25 := Int 0;
     s33 := Float 4; s34 := Int 0; s35 := Int 0; s44 := Float 4; s45 := Int 0;
     dpprms := Int 0; matrix := Some m |}.

End Example.

(** ** Python lists and strings *)

Module PyList.

(** [l[i]]: a negative index counts from the end; outside the list it is
    [IndexError]. *)
Definition getitem {A} (l : list A) (i : Z) : result A :=
  let j := if i <? 0 then i + Z.of_nat (length l) else i in
  if (0 <=? j) && (j <? Z.of_nat (length l)) then
    match l !! Z.to_nat j with
    | Some a => Ok a
    | None => Raise IndexError
    end
  else Raise IndexError.

End PyList.

Module PyStr.

(** [s.split(sep)] for a separator of one character: the pieces between the
    separators, one more than there are separators. *)
Fixpoint split (sep : ascii) (s : list ascii) : list (list ascii) :=
  match s with
  | [] => [[]]
  | c :: s =>
      if decide (c = sep) then [] :: split sep s
      else match split sep s with
           | piece :: pieces => (c :: piece) :: pieces
           | [] => [[c]]
           end
  end.

(** [s.lstrip(' ')]. *)
Fixpoint lstrip (s : list ascii) : list ascii :=
  match s with
  | c :: s' => if decide (c = " "%char) then lstrip s' else s
  | [] => []
  end.

(** [s.strip(' ')]. *)
Definition strip (s : list ascii) : list ascii :=
  reverse (lstrip (reverse (lstrip s))).

End PyStr.

(** ** [MadResults] (madx.py) *)

Module MadResults.

Section Values.

(** What the dictionary of a run holds under its keys. *)
Variable V : Type.

Record t := {
  _results : list (gmap string V);
  _tracks : option DataFrame;
  _matrix : option DataFrame;
  _srloss : option DataFrame;
}.

Definition __init__ (results : list (gmap string V)) : t :=
  {| _results := results; _tracks := None; _matrix := None; _srloss := None |}.

(** [merge], a class method taking any number of results. *)
Definition merge (results : list t) : t :=
  __init__ (r ← results; rr ← _results r; [rr]).

Definition __len__ (self : t) : nat := length (_results self).

Definition __copy__ (self : t) : t := __init__ (_results self).

Definition __getitem__ (self : t) (item : Z) : result (gmap string V) :=
  PyList.getitem (_results self) item.

(** The [results] property: each run behind its mapping. *)
Definition results (self : t) : result (list (V * gmap string V)) :=
  mapM (fun r => m ← Py.getitem r "mapping"; Ok (m, r)) (_results self).

(** The [paths] property. *)
Definition paths (self : t) : result (list (V * V)) :=
  rs ← results self;
  mapM (fun mr => p ← Py.getitem mr.2 "path"; Ok (mr.1, p)) rs.

(** The [mappings] property. *)
Definition mappings (self : t) : result (list V) :=
  rs ← results self; Ok (fst <$> (rs : list (V * gmap string V))).

End Values.

End MadResults.

(** ** Reading .fai files (output.py) *)

Module Output.

(** The line breaks of a text and the commas of a line. *)
Definition newlines (content : list ascii) : nat :=
  length (filter (fun c => c = "010"%char) content).

Definition commas (line : list ascii) : nat :=
  length (filter (fun c => c = ","%char) line).

Section Files.

(** [open(path).read()]: the text of the file, or the exception of
    [open]. *)
Variable read_text : string → result (list ascii).

(** [pd.read_csv(path, skiprows=k, names=headers, sep=r'\s+', ...)]. *)
Variable read_csv_names : string → nat → list (list ascii) → result DataFrame.

(** The header names [read_fai_file] takes from the third line of the
    file. *)
Definition headers (content : list ascii) : result (list (list ascii)) :=
  line ← PyList.getitem (PyStr.split "010"%char content) 2;
  Ok (PyStr.strip <$> PyStr.split ","%char line).

(** [read_fai_file]. *)
Definition read_fai_file (filename path : string) : result DataFrame :=
  content ← read_text (Beam.os_path_join path filename);
  names ← headers content;
  read_csv_names (Beam.os_path_join path filename) 4 names.

End Files.

End Output.

(** ** Examples for the results and the files *)

Module Example2.

(** Two results of one run each and one of two runs; the last run has no
    mapping. *)
Definition run (mapping path : string) : gmap string string :=
  <["mapping" := mapping]> (<["path" := path]> ∅).

Definition first_result : MadResults.t string :=
  MadResults.__init__ string [run "m0" "/tmp/0"; run "m1" "/tmp/1"].

Definition second_result : MadResults.t string :=
  MadResults.__init__ string [run "m2" "/tmp/2"].

Definition broken_result : MadResults.t string :=
  MadResults.__init__ string [run "m3" "/tmp/3"; <["path" := "/tmp/4"%string]> ∅].

(** A beam file of five lines, the names on the third. *)
Definition fai_content : list ascii :=
  String.list_ascii_of_string "# COORDINATES" ++ "010"%char ::
  String.list_ascii_of_string "# 1 , 2 , 3" ++ "010"%char ::
  String.list_ascii_of_string "KEX ,  Do-1, Yo " ++ "010"%char ::
  String.list_ascii_of_string "int , float , cm" ++ "010"%char ::
  String.list_ascii_of_string "1 0.5 2.0".

(** A file system with that one file and a second of one line. *)
Definition fai_read_text (path : string) : result (list ascii) :=
  if decide (path = "./zgoubi.fai"%string) then Ok fai_content
  else if decide (path = "./short.fai"%string) then Ok (String.list_ascii_of_string "KEX, Do-1")
  else Raise (OSError "No such file or directory").

(** A reader that keeps the names and reads no row. *)
Definition fai_read_csv_names (path : string) (skiprows : nat) (names : list (list ascii))
    : result DataFrame :=
  Ok {| columns := (fun h => Name (String.string_of_list_ascii h)) <$> names; values := [] |}.

End Example2.

(** * Properties *)

(** ** Slices of lists *)

Lemma slice_bound_inside (len : nat) (i : Z) :
  0 ≤ i ≤ Z.of_nat len → slice_bound len i = Z.to_nat i.
Proof.
  intros Hi. unfold slice_bound.
  destruct (Z.ltb_spec i 0); lia.
Qed.

Lemma slice_inside {A} (l : list A) (a b : nat) :
  (a ≤ b ≤ length l)%nat →
  Py.slice l (Z.of_nat a) (Z.of_nat b) = take (b - a) (drop a l).
Proof.
  intros H. unfold Py.slice.
  rewrite !slice_bound_inside by lia. by rewrite !Nat2Z.id.
Qed.

Lemma slice_to_zero {A} (l : list A) : Py.slice_to l (Some 0) = [].
Proof.
  unfold Py.slice_to, Py.slice.
  replace (slice_bound (length l) 0) with 0%nat by (unfold slice_bound; simpl; lia).
  reflexivity.
Qed.

Lemma slice_to_length {A} (l : list A) (n : option Z) :
  (length (Py.slice_to l n) ≤ length l)%nat.
Proof.
  destruct n as [n|]; simpl; [|done].
  unfold Py.slice. rewrite length_take, length_drop. lia.
Qed.

(** The windows of width [n] laid end to end give back the front of the
    list. *)
Lemma concat_windows {A} (l : list A) (n k : nat) :
  concat ((fun i => take n (drop (i * n) l)) <$> seq 0 k) = take (k * n) l.
Proof.
  induction k as [|k IH]; [by rewrite take_0|].
  rewrite seq_S, fmap_app, concat_app, IH. simpl.
  rewrite app_nil_r, take_take_drop. f_equal. lia.
Qed.

(** ** The population store *)

Section Objet2_facts.

Import Objet2.

Lemma default_PARTICULES_eq : default_PARTICULES = Ok (Array2 7 [default_row]).
Proof. reflexivity. Qed.

(** On a table labelled (Y, T, Z, P, D) the [elif] branch of [add] yields
    the seven-column block: X of 0.0 inserted, D shifted by 1.0, IEX of
    1.0 added, row by row. *)
Lemma normalize_coordinates (d : DataFrame) :
  columns d = coordinates → wf d →
  normalize d = Ok (Array2 7 (normalized_row <$> values d)).
Proof.
  destruct d as [cols rows]. unfold wf. simpl. intros -> Hwf.
  unfold normalize, setitem. simpl.
  unfold iadd. simpl. unfold getitem_list. simpl. unfold to_numpy. simpl.
  do 2 f_equal. rewrite <- !list_fmap_compose.
  induction Hwf as [|r rows Hr _ IH]; [done|].
  rewrite !fmap_cons, IH. f_equal.
  destruct r as [|cy [|ct [|cz [|cp [|cd [|? ?]]]]]]; done.
Qed.

(** Appending to an unset store a table labelled (Y, T, Z, P, D) stores
    its normalized block. *)
Lemma add_coordinates_unset (self : t) (d : DataFrame) :
  _PARTICULES self = PyNone → columns d = coordinates → wf d →
  add self (PyFrame d) =
    (set_PARTICULES self (PyArray (Array2 7 (normalized_row <$> values d))), Ok ()).
Proof.
  intros Hs Hc Hwf. unfold add. rewrite Hs.
  rewrite decide_True by done. by rewrite normalize_coordinates.
Qed.

(** Appending a table to a store that holds a 2-D block goes to
    [np.append] with the table as it is: numpy refuses it when the column
    counts differ, and joins the rows unchanged when they agree. *)
Lemma add_table_populated (self : t) (c : nat) (rows : list (list float)) (d : DataFrame) :
  _PARTICULES self = PyArray (Array2 c rows) →
  add self (PyFrame d) =
    if decide (c = length (columns d))
    then (set_PARTICULES self (PyArray (Array2 c (rows ++ values d))), Ok ())
    else (self, Raise ValueError).
Proof.
  intros Hs. unfold add. rewrite Hs. simpl.
  unfold np_append. simpl. by destruct (decide _).
Qed.

Lemma PARTICULES_unset (self : t) :
  _PARTICULES self = PyNone →
  PARTICULES self =
    (set_PARTICULES self (PyArray (Array2 7 [default_row])),
     Ok (PyArray (Array2 7 [default_row]))).
Proof. destruct self as [l p]. simpl. intros ->. reflexivity. Qed.

Lemma PARTICULES_read (self self' : t) (v : pyobj) :
  PARTICULES self = (self', Ok v) → v ≠ PyNone ∧ _PARTICULES self' = v.
Proof.
  destruct self as [l p]. unfold PARTICULES.
  destruct p as [ | n | rows | a | d]; cbn [_PARTICULES].
  3: { destruct (asarray (PyList rows)) as [a'|e]; cbn [mbind result_bind];
       [destruct (reshape_1 7 a') as [b|e]|]; cbn [mbind result_bind set_PARTICULES _PARTICULES].
       all: intros [= <- <-]; done. }
  all: cbn; intros [= <- <-]; done.
Qed.

(** C2, at an input where the code departs from it: a store that already
    holds a population (the seven-column row of the example in survey.py)
    is handed the labelled table (Y, T, Z, P, D).  The table is not
    normalized; it goes to [np.append] as it is, which raises
    [ValueError] on five columns against seven and leaves the store as it
    was.  Where the stored block has five columns itself, the rows are
    joined with D unshifted and no X or IEX. *)
Theorem add_coordinates_populated :
  let p := PyFrame {| columns := coordinates; values := [[1; 2; 3; 4; 0.5]%float] |} in
  let self := fst (add (post_init "BUNCH") (PyList [[10; 0; 0; 0; 0; 1; 0]%float])) in
  let raw := fst (add (post_init "BUNCH") (PyArray (Array2 5 [[0; 0; 0; 0; 0]%float]))) in
  _PARTICULES self = PyList [[10; 0; 0; 0; 0; 1; 0]%float]
  ∧ add self p = (self, Raise ValueError)
  ∧ add raw p =
      (set_PARTICULES raw
         (PyArray (Array2 5 [[0; 0; 0; 0; 0]; [1; 2; 3; 4; 0.5]]%float)), Ok ()).
Proof. repeat split. Qed.

(** C3: appending the table with columns (Y, T, Z, P, D) and the single
    row [1.0, 2.0, 3.0, 4.0, 0.5] to an empty store leaves a population of
    exactly one seven-column row, [1.0, 2.0, 3.0, 4.0, 0.0, 1.5, 1.0], and
    that is what the next read returns. *)
Theorem add_coordinates_example (self : t) :
  let p := PyFrame {| columns := coordinates; values := [[1; 2; 3; 4; 0.5]%float] |} in
  let row := [1; 2; 3; 4; 0; 1.5; 1]%float in
  add (clear self) p = (set_PARTICULES self (PyArray (Array2 7 [row])), Ok ())
  ∧ PARTICULES (fst (add (clear self) p)) =
      (set_PARTICULES self (PyArray (Array2 7 [row])), Ok (PyArray (Array2 7 [row])))
  ∧ add (post_init (LABEL1 self)) p =
      (set_PARTICULES (post_init (LABEL1 self)) (PyArray (Array2 7 [row])), Ok ()).
Proof. repeat split. Qed.

(** C9: [clear] leaves the store unset, whatever it held.  A read of an
    unset store, fresh or cleared, builds the single row of zeros with
    D = 1.0 and IEX = 1.0, keeps it in the store and returns it, so the
    next read returns the same row.  No read of any store returns
    [None]: what a read returns is what the store holds afterwards. *)
Theorem clear_then_default (self : t) :
  let dflt := PyArray (Array2 7 [[0; 0; 0; 0; 0; 1; 1]%float]) in
  _PARTICULES (clear self) = PyNone
  ∧ PARTICULES (clear self) = (set_PARTICULES self dflt, Ok dflt)
  ∧ PARTICULES (post_init (LABEL1 self)) = (set_PARTICULES self dflt, Ok dflt)
  ∧ PARTICULES (set_PARTICULES self dflt) = (set_PARTICULES self dflt, Ok dflt)
  ∧ (∀ self' v, PARTICULES self = (self', Ok v) → v ≠ PyNone ∧ _PARTICULES self' = v).
Proof.
  intros dflt. do 4 (split; [reflexivity|]).
  intros self' v H. by eapply PARTICULES_read.
Qed.

(** C10: an unset store handed a labelled table whose column list is not
    exactly (Y, T, Z, P, D) drops the table: [add] returns normally, the
    store stays unset, and the next read yields the default single row
    instead of the supplied data. *)
Theorem add_other_columns_dropped (self : t) (d : DataFrame) :
  _PARTICULES self = PyNone →
  columns d ≠ coordinates →
  let dflt := PyArray (Array2 7 [[0; 0; 0; 0; 0; 1; 1]%float]) in
  add self (PyFrame d) = (self, Ok ())
  ∧ _PARTICULES (fst (add self (PyFrame d))) = PyNone
  ∧ PARTICULES (fst (add self (PyFrame d))) = (set_PARTICULES self dflt, Ok dflt).
Proof.
  intros Hs Hc dflt.
  assert (Hadd : add self (PyFrame d) = (self, Ok ())).
  { unfold add. rewrite Hs. by rewrite decide_False. }
  rewrite Hadd. simpl. repeat split; [done|]. by apply PARTICULES_unset.
Qed.

(** The table of C10 in three shapes, each handed to a fresh store: the
    five names in another order, other names, and a sixth column. *)
Lemma add_other_columns_dropped_witness :
  let self := post_init "BUNCH" in
  let dflt := PyArray (Array2 7 [[0; 0; 0; 0; 0; 1; 1]%float]) in
  let dropped d :=
    columns d ≠ coordinates
    ∧ add self (PyFrame d) = (self, Ok ())
    ∧ _PARTICULES (fst (add self (PyFrame d))) = PyNone
    ∧ PARTICULES (fst (add self (PyFrame d))) = (set_PARTICULES self dflt, Ok dflt) in
  _PARTICULES self = PyNone
  ∧ dropped {| columns := [Name "T"; Name "Y"; Name "Z"; Name "P"; Name "D"];
               values := [[1; 2; 3; 4; 0.5]%float] |}
  ∧ dropped {| columns := [Name "x"; Name "xp"; Name "y"; Name "yp"; Name "dpp"];
               values := [[1; 2; 3; 4; 0.5]%float] |}
  ∧ dropped {| columns := [Name "Y"; Name "T"; Name "Z"; Name "P"; Name "D"; Name "S"];
               values := [[1; 2; 3; 4; 0.5; 6]%float] |}.
Proof.
  intros self dflt dropped. split; [reflexivity|].
  split; [|split]; (split; [discriminate|]);
    apply (add_other_columns_dropped self); first [reflexivity | discriminate].
Defined.

End Objet2_facts.

(** ** Slices of the beam *)

Lemma mapM_Ok {A B} (f : A → result B) (g : A → B) (l : list A) :
  (∀ a, a ∈ l → f a = Ok (g a)) → mapM f l = Ok (g <$> l).
Proof.
  induction l as [|a l IH]; intros H; [done|].
  cbn. rewrite (H a) by apply list_elem_of_here. cbn.
  rewrite IH; [done|]. intros b Hb. apply H. by apply list_elem_of_further.
Qed.

Section Beam_slices.

Import Beam.

Lemma active_slice_unset (self : t) :
  _distribution self = None → active_slice self = Ok None.
Proof. intros H. unfold active_slice. by rewrite H. Qed.

Lemma active_slice_zero (self : t) (dist : DataFrame) :
  _distribution self = Some dist → _slices self = 0 →
  active_slice self = Raise ZeroDivisionError.
Proof. intros H H0. unfold active_slice. rewrite H. by rewrite decide_True. Qed.

(** On five columns the view is the window under the five names, or
    "no data" when the window has no row. *)
Lemma active_slice_five (self : t) (dist : DataFrame) :
  _distribution self = Some dist → _slices self ≠ 0 →
  length (columns dist) = 5%nat →
  active_slice self =
    if decide (window self dist = []) then Ok None
    else Ok (Some {| columns := Objet2.coordinates; values := window self dist |}).
Proof.
  intros H Hk H5. unfold active_slice. rewrite H.
  rewrite decide_False by done. unfold set_columns. cbn [columns iloc].
  rewrite decide_True by (by rewrite H5). cbn [mbind result_bind].
  change (values (iloc dist _ _)) with (window self dist).
  unfold Pd.shape0 at 1. cbn [values].
  destruct (decide (window self dist = [])) as [->|Hne]; [done|].
  rewrite decide_False; [done|]. by destruct (window self dist).
Qed.

(** On any other number of columns the relabelling is refused. *)
Lemma active_slice_not_five (self : t) (dist : DataFrame) :
  _distribution self = Some dist → _slices self ≠ 0 →
  length (columns dist) ≠ 5%nat →
  active_slice self = Raise ValueError.
Proof.
  intros H Hk H5. unfold active_slice. rewrite H.
  rewrite decide_False by done. unfold set_columns. cbn [columns iloc].
  rewrite decide_False; [done|]. intros Heq. apply H5. by rewrite <- Heq.
Qed.

Lemma window_inside (self : t) (dist : DataFrame) (i : nat) :
  1 ≤ _slices self → (i < Z.to_nat (_slices self))%nat →
  let n := Z.to_nat (Z.of_nat (length (values dist)) `div` _slices self) in
  window (with_SLICE self (Z.of_nat i)) dist = take n (drop (i * n) (values dist)).
Proof.
  intros Hk Hi n. unfold window, Pd.shape0. cbn [with_SLICE SLICE _slices].
  set (M := length (values dist)) in *. set (k := _slices self) in *.
  assert (Hq : 0 ≤ Z.of_nat M `div` k) by (apply Z.div_pos; lia).
  assert (Hle : k * (Z.of_nat M `div` k) ≤ Z.of_nat M) by (apply Z.mul_div_le; lia).
  assert (Hn : Z.of_nat M `div` k = Z.of_nat n) by (unfold n; lia).
  rewrite Hn in *.
  replace (Z.of_nat i * Z.of_nat n) with (Z.of_nat (i * n)) by lia.
  replace ((Z.of_nat i + 1) * Z.of_nat n) with (Z.of_nat (i * n + n)) by lia.
  rewrite slice_inside.
  - f_equal. lia.
  - fold M. split; [lia|]. nia.
Qed.

Lemma active_slice_window (self : t) (dist : DataFrame) (i : nat) :
  _distribution self = Some dist → length (columns dist) = 5%nat →
  1 ≤ _slices self → (i < Z.to_nat (_slices self))%nat →
  let n := Z.to_nat (Z.of_nat (length (values dist)) `div` _slices self) in
  ∃ v, active_slice (with_SLICE self (Z.of_nat i)) = Ok v
       ∧ view_rows v = take n (drop (i * n) (values dist)).
Proof.
  intros H H5 Hk Hi n.
  rewrite (active_slice_five _ dist) by (cbn; first [done | lia]).
  rewrite window_inside by done. fold n.
  destruct (decide _) as [Heq|Hne]; eexists; (split; [reflexivity|]); cbn; done.
Qed.

(** C1, as the code has it: the partition law holds for every population
    of five columns and every slice count [k >= 1]. *)
Theorem active_slice_partition (self : t) (dist : DataFrame) :
  _distribution self = Some dist →
  length (columns dist) = 5%nat →
  1 ≤ _slices self →
  partition_law self dist.
Proof.
  intros H H5 Hk. unfold partition_law.
  set (rows := values dist). set (k := Z.to_nat (_slices self)).
  set (n := Z.to_nat (Z.of_nat (length rows) `div` _slices self)).
  assert (Hq : 0 ≤ Z.of_nat (length rows) `div` _slices self) by (apply Z.div_pos; lia).
  assert (Hle : _slices self * (Z.of_nat (length rows) `div` _slices self)
                ≤ Z.of_nat (length rows)) by (apply Z.mul_div_le; lia).
  assert (Hkn : (k * n ≤ length rows)%nat) by (unfold k, n; nia).
  split; [|split; [|split; [|split; [|split; [|split]]]]].
  - intros i Hi.
    destruct (active_slice_window self dist i H H5 Hk Hi) as (v & Hv & Hrows).
    exists v. split; [done|]. split; [done|].
    intros j Hj. rewrite Hrows. fold n. rewrite lookup_take_lt by done.
    by rewrite lookup_drop.
  - exists ((fun i => if decide (take n (drop (Z.to_nat i * n) rows) = []) then None
                      else Some {| columns := Objet2.coordinates;
                                   values := take n (drop (Z.to_nat i * n) rows) |})
            <$> range0 (_slices self)).
    split.
    + apply mapM_Ok. intros a Ha. unfold range0 in Ha.
      apply list_elem_of_fmap in Ha as (i & -> & Hi).
      apply elem_of_seq in Hi.
      rewrite (active_slice_five _ dist) by (cbn; first [done | lia]).
      rewrite window_inside by (first [done | lia]). fold rows n.
      rewrite Nat2Z.id. by destruct (decide _).
    + unfold range0. rewrite <- !list_fmap_compose.
      rewrite <- (concat_windows rows n k). f_equal.
      apply list_fmap_ext. intros _ i _. cbn. rewrite Nat2Z.id.
      by destruct (decide _) as [->|].
  - intros i1 j1 i2 j2 Hj1 Hj2 Heq.
    assert (i1 = i2) by nia. subst. split; [done|lia].
  - intros p Hp. assert (0 < n)%nat by nia.
    exists (p / n)%nat, (p mod n)%nat.
    pose proof (Nat.div_mod_eq p n). pose proof (Nat.mod_upper_bound p n).
    split; [|split]; [|lia|lia].
    apply Nat.Div0.div_lt_upper_bound. lia.
  - intros i j Hi Hj. nia.
  - done.
  - rewrite Nat2Z.inj_sub by done.
    pose proof (Z.div_mod (Z.of_nat (length rows)) (_slices self)).
    unfold k, n. nia.
Qed.

(** A population of seven rows in three slices: two rows each, the
    seventh row in none. *)
Lemma active_slice_partition_witness :
  let dist := {| columns := Pos <$> range0 5;
                 values := (fun i => [Z2float i; 0; 0; 0; 0]%float) <$> range0 7 |} in
  let self := {| LABEL1 := "BEAM"; SLICE := 0; REFERENCE := 0; _slices := 3;
                 _distribution := Some dist |} in
  (_distribution self = Some dist ∧ length (columns dist) = 5%nat ∧ 1 ≤ _slices self)
  ∧ partition_law self dist.
Proof.
  split; [split; [reflexivity | split; [reflexivity | cbn; lia]]|].
  apply active_slice_partition; [reflexivity | reflexivity | cbn; lia].
Defined.

(** C1 as stated fails: a population of two rows in the seven-column
    layout, cut into two slices, has no view of index 0; the relabelling
    to five names raises [ValueError], where the law asks for row 0. *)
Lemma active_slice_partition_counterexample :
  let dist := {| columns := Objet2.layout;
                 values := [[1; 2; 3; 4; 0; 1; 1]; [5; 6; 7; 8; 0; 1; 1]]%float |} in
  let self := {| LABEL1 := "BEAM"; SLICE := 0; REFERENCE := 0; _slices := 2;
                 _distribution := Some dist |} in
  active_slice (with_SLICE self 0) = Raise ValueError
  ∧ ¬ partition_law self dist.
Proof.
  split; [reflexivity|].
  intros (Hview & _). destruct (Hview 0%nat) as (v & Hv & _); [cbn; lia|].
  discriminate Hv.
Qed.

Lemma window_sublist (self : t) (dist : DataFrame) :
  sublist (window self dist) (values dist).
Proof.
  unfold window, Py.slice.
  etrans; [apply sublist_take | apply sublist_drop].
Qed.

(** C7, as the code has it.  Without a population the view is "no
    data".  With a population of exactly five columns and a slice count
    other than zero, the view is "no data" when the window has no row, and
    otherwise the rows of the window, whole, under the names
    (Y, T, Z, P, D).  Nothing is dropped: with any other number of columns
    the view raises [ValueError], also when the window has no row; and a
    slice count of zero raises [ZeroDivisionError]. *)
Theorem active_slice_view (self : t) :
  (_distribution self = None → active_slice self = Ok None)
  ∧ (∀ dist, _distribution self = Some dist → _slices self ≠ 0 →
       length (columns dist) = 5%nat →
       sublist (window self dist) (values dist)
       ∧ ((window self dist = [] ∧ active_slice self = Ok None)
          ∨ (window self dist ≠ []
             ∧ active_slice self =
                 Ok (Some {| columns := Objet2.coordinates;
                             values := window self dist |}))))
  ∧ (∀ dist, _distribution self = Some dist → _slices self ≠ 0 →
       length (columns dist) ≠ 5%nat → active_slice self = Raise ValueError)
  ∧ (∀ dist, _distribution self = Some dist → _slices self = 0 →
       active_slice self = Raise ZeroDivisionError).
Proof.
  split; [apply active_slice_unset|].
  split; [|split; [apply active_slice_not_five | apply active_slice_zero]].
  intros dist H Hk H5. split; [apply window_sublist|].
  rewrite (active_slice_five self dist) by done.
  destruct (decide (window self dist = [])); [by left | by right].
Qed.

(** Seven rows of five columns in three slices: the view of index 1 is
    rows 2 and 3 under the five names; index 5 is past the end and gives
    "no data". *)
Lemma active_slice_view_witness :
  let dist := {| columns := Pos <$> range0 5;
                 values := (fun i => [Z2float i; 0; 0; 0; 0]%float) <$> range0 7 |} in
  let self i := {| LABEL1 := "BEAM"; SLICE := i; REFERENCE := 0; _slices := 3;
                   _distribution := Some dist |} in
  active_slice (self 1) =
    Ok (Some {| columns := Objet2.coordinates;
                values := [[2; 0; 0; 0; 0]; [3; 0; 0; 0; 0]]%float |})
  ∧ active_slice (self 5) = Ok None.
Proof.
  intros dist self. split.
  - destruct (proj1 (proj2 (active_slice_view (self 1))) dist) as [_ [[E _]|[_ E]]];
      [reflexivity | cbn; lia | reflexivity | discriminate E | exact E].
  - destruct (proj1 (proj2 (active_slice_view (self 5))) dist) as [_ [[_ E]|[E _]]];
      [reflexivity | cbn; lia | reflexivity | exact E | by destruct E].
Defined.

(** C7 as stated fails.  A population in the seven-column layout has no
    view: the relabelling to five names raises [ValueError] and drops no
    column, whether the window holds a row (index 0) or none (index 5).
    A slice count of zero raises [ZeroDivisionError]. *)
Lemma active_slice_view_counterexample :
  let dist := {| columns := Objet2.layout;
                 values := [[1; 2; 3; 4; 0; 1.5; 1]%float] |} in
  let self k i := {| LABEL1 := "BEAM"; SLICE := i; REFERENCE := 0; _slices := k;
                     _distribution := Some dist |} in
  active_slice (self 1 0) = Raise ValueError
  ∧ active_slice (self 1 5) = Raise ValueError
  ∧ active_slice (self 0 0) = Raise ZeroDivisionError
  ∧ ¬ (active_slice (self 1 0) = Ok None
       ∨ ∃ d, active_slice (self 1 0) = Ok (Some d) ∧ columns d = Objet2.coordinates).
Proof.
  do 3 (split; [reflexivity|]).
  intros [E|(d & E & _)]; discriminate E.
Qed.

End Beam_slices.

(** ** Mappings *)

Section Beam_mappings.

Import Beam.

Lemma combinations_single (name : string) (vals : list Z) :
  ParametricMapping.combinations [(name, vals)] = (fun v => {[ name := v ]}) <$> vals.
Proof.
  cbn. induction vals as [|v vals IH]; [done|].
  cbn. rewrite insert_empty. by rewrite <- IH.
Qed.

(** C5: with [REFERENCE] set to 1 the expansion is the one mapping
    [{LABEL1.REFERENCE: 1}], whatever the slice count and the slice index;
    otherwise it is one mapping [{LABEL1.SLICE: i}] per slice index [i] of
    [0 .. slices - 1], in that order. *)
Theorem mappings_expand (self : t) :
  (REFERENCE self = 1 →
     mappings self = [ {[ (LABEL1 self +:+ ".REFERENCE")%string := 1 ]} ])
  ∧ (REFERENCE self ≠ 1 →
       mappings self =
         (fun i => {[ (LABEL1 self +:+ ".SLICE")%string := i ]}) <$> range0 (_slices self)
       ∧ length (mappings self) = Z.to_nat (_slices self)).
Proof.
  unfold mappings. split; intros H.
  - by rewrite decide_True.
  - rewrite decide_False by done. rewrite combinations_single.
    split; [done|]. unfold range0. by rewrite !length_fmap, length_seq.
Qed.

(** A beam of three slices: one mapping in reference mode, three
    otherwise. *)
Lemma mappings_expand_witness :
  let self r := {| LABEL1 := "BEAM"; SLICE := 0; REFERENCE := r; _slices := 3;
                   _distribution := None |} in
  mappings (self 1) = [ {[ "BEAM.REFERENCE" := 1 ]} ]
  ∧ mappings (self 0) =
      [ {[ "BEAM.SLICE" := 0 ]}; {[ "BEAM.SLICE" := 1 ]}; {[ "BEAM.SLICE" := 2 ]} ].
Proof.
  intros self. split.
  - apply (proj1 (mappings_expand (self 1))). reflexivity.
  - apply (proj2 (mappings_expand (self 0))). discriminate.
Defined.

End Beam_mappings.

(** ** The covariance built from Twiss parameters *)

Section Beam_twiss.

Import Beam.

Lemma bind_Ok {A B} (m : result A) (f : A → result B) (b : B) :
  m ≫= f = Ok b → ∃ a, m = Ok a ∧ f a = Ok b.
Proof. destruct m as [a|e]; [|done]. intros H. by exists a. Qed.

(** The arguments [from_twiss_parameters] passes on never hold a ready
    matrix: the sampler gets the one [sigma_matrix] builds. *)
Lemma twiss_sigma_matrix (kwargs : gmap string num) (a : sigma) :
  twiss_sigma kwargs = Ok a → matrix a = None.
Proof.
  unfold twiss_sigma. intros H.
  repeat (apply bind_Ok in H as (? & _ & H)).
  by injection H as <-.
Qed.

(** C6: for beta = 2, alpha = 0 and emittance 1e-6 in both planes, the
    matrix has 2e-6 at (X, X), 0.5e-6 at (PX, PX) and 0 at (X, PX) and at
    its mirror (PX, X), and the same in the Y block.  With beta and alpha
    given as the floats 2.0 and 0.0 the off-diagonal entry is the product
    [-0.0 * 1e-6], a zero under Python's [==] as well. *)
Theorem twiss_covariance_example :
  (∃ cov, twiss_matrix (twiss_kwargs (Int 2) (Int 0) (Float 1e-6)) = Ok cov
     ∧ entry cov 0 0 = Some 2e-6%float
     ∧ entry cov 1 1 = Some 0.5e-6%float
     ∧ entry cov 0 1 = Some 0%float
     ∧ entry cov 1 0 = Some 0%float
     ∧ entry cov 2 2 = Some 2e-6%float
     ∧ entry cov 3 3 = Some 0.5e-6%float
     ∧ entry cov 2 3 = Some 0%float
     ∧ entry cov 3 2 = Some 0%float)
  ∧ (∃ cov, twiss_matrix (twiss_kwargs (Float 2) (Float 0) (Float 1e-6)) = Ok cov
       ∧ entry cov 0 0 = Some 2e-6%float
       ∧ entry cov 1 1 = Some 0.5e-6%float
       ∧ (∃ v, entry cov 0 1 = Some v ∧ (v =? 0)%float = true)
       ∧ (∃ v, entry cov 1 0 = Some v ∧ (v =? 0)%float = true)).
Proof.
  split.
  - eexists. split; [vm_compute; reflexivity|]. repeat split.
  - eexists. split; [vm_compute; reflexivity|].
    do 2 (split; [reflexivity|]). split; eexists; split; reflexivity.
Qed.

End Beam_twiss.

(** ** Building the distribution *)

Section Beam_world.

Import Beam.

Variable read_csv : string → result DataFrame.
Variable rng : Type.
Variable multivariate_normal :
  rng → list float → ndarray → nat → rng * list (list float).

Abbreviation generate_from_file := (generate_from_file read_csv).
Abbreviation _initialize_distribution := (_initialize_distribution read_csv).
Abbreviation from_file := (from_file read_csv).
Abbreviation generator := (generator rng multivariate_normal).
Abbreviation generate_from_5d_sigma_matrix :=
  (generate_from_5d_sigma_matrix rng multivariate_normal).
Abbreviation from_5d_sigma_matrix := (from_5d_sigma_matrix read_csv rng multivariate_normal).
Abbreviation from_twiss_parameters := (from_twiss_parameters read_csv rng multivariate_normal).

Lemma check_empty (self : t) (d : DataFrame) :
  Pd.shape0 d = 0%nat →
  check self d = (set_distribution self (Some d), Raise empty_distribution).
Proof. intros H. unfold check. by rewrite decide_True. Qed.

Lemma check_rows (self : t) (d : DataFrame) :
  Pd.shape0 d ≠ 0%nat → check self d = (set_distribution self (Some d), Ok ()).
Proof. intros H. unfold check. by rewrite decide_False. Qed.

Lemma rows_to_empty (d : DataFrame) (n : option Z) :
  Pd.shape0 d = 0%nat → Pd.shape0 (rows_to d n) = 0%nat.
Proof.
  unfold Pd.shape0, rows_to. cbn [values]. intros H.
  pose proof (slice_to_length (values d) n). lia.
Qed.

Lemma rows_to_zero (d : DataFrame) : Pd.shape0 (rows_to d (Some 0)) = 0%nat.
Proof. unfold Pd.shape0, rows_to. cbn [values]. by rewrite slice_to_zero. Qed.

(** The names test of [from_twiss_parameters] fires exactly when some
    keyword is outside the accepted names. *)
Lemma keys_test (kwargs : gmap string num) :
  Exists (fun k => k ∉ keys) (map_to_list kwargs).*1 ↔ ∃ k, k ∈ dom kwargs ∧ k ∉ keys.
Proof.
  rewrite Exists_exists. split; intros (k & Hk & Hn); exists k; (split; [|done]).
  - apply list_elem_of_fmap in Hk as ([k' v] & -> & Hkv).
    apply elem_of_map_to_list in Hkv. apply elem_of_dom. by exists v.
  - apply elem_of_dom in Hk as [v Hv]. apply list_elem_of_fmap.
    exists (k, v). split; [done|]. by apply elem_of_map_to_list.
Qed.

(** C8: keyword arguments with a name outside the accepted ones make
    [from_twiss_parameters] raise its exception at once: the beam is left
    as it was and the random generator is left untouched, whatever the
    other arguments are and whatever the rest of the method would have
    done with them. *)
Theorem from_twiss_parameters_invalid (self : t) (g : rng) (n : Z)
    (kwargs : gmap string num) (k : string) :
  k ∈ dom kwargs → k ∉ keys →
  from_twiss_parameters self g n kwargs =
    (self, g, Raise (ZgoubidooBeamException invalid_argument)).
Proof.
  intros Hk Hn. unfold Beam.from_twiss_parameters.
  rewrite decide_True; [done|]. apply keys_test. by exists k.
Qed.

(** What the sampler call returns when it returns: a block of as many
    rows as the sampler drew. *)
Lemma generator_Ok (g g' : rng) (mean : list num) (cov arr : ndarray) (n : Z) :
  generator g mean cov n = (g', Ok arr) →
  ∃ fmean, mapM to_float mean = Ok fmean ∧ 0 ≤ n
    ∧ g' = (multivariate_normal g fmean cov (Z.to_nat n)).1
    ∧ arr = Array2 (length fmean) (multivariate_normal g fmean cov (Z.to_nat n)).2.
Proof.
  unfold Beam.generator. destruct (mapM to_float mean) as [fmean|e]; [|done].
  destruct (Z.ltb_spec n 0); [done|].
  destruct (multivariate_normal g fmean cov (Z.to_nat n)) as [g1 rows] eqn:E.
  intros [= <- <-]. exists fmean. by rewrite E.
Qed.

Lemma generate_from_5d_sigma_matrix_Ok (g g' : rng) (n : Z) (a : sigma) (arr : ndarray) :
  generate_from_5d_sigma_matrix g n a = (g', Ok arr) →
  ∃ mean cov, generator g mean cov n = (g', Ok arr).
Proof.
  unfold Beam.generate_from_5d_sigma_matrix.
  destruct (pow2 (dpprms a)) as [s55|e]; [|done].
  destruct (matrix a) as [m|].
  - destruct m as [ | l | c rows]; try done.
    do 6 (destruct c as [|c]; try done).
    destruct (decide _); [|done]. eauto.
  - destruct (sigma_matrix a s55) as [cov|e]; [|done]. eauto.
Qed.

(** With Twiss parameters the sampler is called on the matrix
    [twiss_matrix] gives. *)
Lemma generate_from_twiss (g : rng) (n : Z) (kwargs : gmap string num)
    (a : sigma) (cov : ndarray) :
  twiss_sigma kwargs = Ok a → twiss_matrix kwargs = Ok cov →
  generate_from_5d_sigma_matrix g n a = generator g [x a; px a; y a; py a; dpp a] cov n.
Proof.
  intros Ha Hm. unfold twiss_matrix in Hm. rewrite Ha in Hm.
  cbn [mbind result_bind] in Hm.
  apply bind_Ok in Hm as (s55 & Hs & Hc).
  unfold Beam.generate_from_5d_sigma_matrix.
  by rewrite Hs, (twiss_sigma_matrix _ _ Ha), Hc.
Qed.

Lemma from_5d_sigma_matrix_empty (self : t) (g g' : rng) (n : Z) (a : sigma) (arr : ndarray) :
  generate_from_5d_sigma_matrix g n a = (g', Ok arr) → Np.shape0 arr = 0%nat →
  ∃ d, Pd.shape0 d = 0%nat
    ∧ from_5d_sigma_matrix self g n a =
        (set_distribution self (Some d), g', Raise empty_distribution).
Proof.
  intros Hgen H0. unfold Beam.from_5d_sigma_matrix. rewrite Hgen.
  apply generate_from_5d_sigma_matrix_Ok in Hgen as (mean & cov & Hgen).
  apply generator_Ok in Hgen as (fmean & _ & _ & _ & ->).
  cbn [pd_DataFrame Beam._initialize_distribution].
  eexists. split; [|by rewrite check_empty]. exact H0.
Qed.

Section Sampler.

(** numpy's sampler returns as many rows as it is asked for. *)
Hypothesis sample_rows :
  ∀ g mean cov n, length (multivariate_normal g mean cov n).2 = n.

Lemma generate_zero_rows (g g' : rng) (a : sigma) (arr : ndarray) :
  generate_from_5d_sigma_matrix g 0 a = (g', Ok arr) → Np.shape0 arr = 0%nat.
Proof.
  intros Hgen.
  apply generate_from_5d_sigma_matrix_Ok in Hgen as (mean & cov & Hgen).
  apply generator_Ok in Hgen as (fmean & _ & _ & _ & ->).
  cbn. by rewrite sample_rows.
Qed.

(** C4: every way of building the distribution that ends with a
    population of zero rows raises the exception of
    [_initialize_distribution] in that same call:
    - a distribution handed over, or built from the first positional
      argument, or read from the file named by [filename] when there is
      no positional argument or pandas makes no table of it;
    - [from_file], on whatever is left of the table after the cut to
      [n] rows, so with [n = 0] on any file and with any [n] on a file
      without rows;
    - [from_5d_sigma_matrix] and [from_twiss_parameters], on whatever
      the sampler returns, so with [n = 0] whenever the arguments get as
      far as the sampler.
    The call leaves the empty table in the beam and returns no beam. *)
Theorem zero_rows_raise (self : t) :
  (∀ d args kwargs, Pd.shape0 d = 0%nat →
     _initialize_distribution self (Some d) args kwargs =
       (set_distribution self (Some d), Raise empty_distribution))
  ∧ (∀ a args kwargs d, pd_DataFrame a = Ok d → Pd.shape0 d = 0%nat →
       _initialize_distribution self None (a :: args) kwargs =
         (set_distribution self (Some d), Raise empty_distribution))
  ∧ (∀ args kwargs filename d,
       (∀ a, args !! 0%nat = Some a → pd_DataFrame a = Raise ValueError) →
       kwargs !! "filename" = Some filename →
       read_csv (os_path_join (get kwargs "path" ".") filename) = Ok d →
       Pd.shape0 d = 0%nat →
       _initialize_distribution self None args kwargs =
         (set_distribution self (Some d), Raise empty_distribution))
  ∧ (∀ file n path d,
       read_csv (os_path_join path file) = Ok d →
       (Pd.shape0 (rows_to d n) = 0%nat →
          from_file self file n path =
            (set_distribution self (Some (rows_to d n)), Raise empty_distribution))
       ∧ (n = Some 0 ∨ Pd.shape0 d = 0%nat → Pd.shape0 (rows_to d n) = 0%nat))
  ∧ (∀ g g' n a arr,
       generate_from_5d_sigma_matrix g n a = (g', Ok arr) →
       n = 0 ∨ Np.shape0 arr = 0%nat →
       ∃ d, Pd.shape0 d = 0%nat
         ∧ from_5d_sigma_matrix self g n a =
             (set_distribution self (Some d), g', Raise empty_distribution))
  ∧ (∀ g g' n kwargs a arr,
       (∀ k, k ∈ dom kwargs → k ∈ keys) →
       twiss_sigma kwargs = Ok a →
       generate_from_5d_sigma_matrix g n a = (g', Ok arr) →
       n = 0 ∨ Np.shape0 arr = 0%nat →
       ∃ d, Pd.shape0 d = 0%nat
         ∧ from_twiss_parameters self g n kwargs =
             (set_distribution self (Some d), g', Raise empty_distribution)).
Proof.
  split; [|split; [|split; [|split; [|split]]]].
  - intros d args kwargs H0. cbn. by apply check_empty.
  - intros a args kwargs d Hd H0. cbn. rewrite Hd. by apply check_empty.
  - intros args kwargs filename d Hargs Hf Hr H0.
    assert (Hfile : generate_from_file filename (get kwargs "path" ".") None = Ok d).
    { unfold Beam.generate_from_file. rewrite Hr. by destruct d. }
    unfold Beam._initialize_distribution.
    destruct args as [|a args]; [|rewrite (Hargs a eq_refl)];
      rewrite Hf, Hfile; by apply check_empty.
  - intros file n path d Hr. split.
    + intros H0. unfold Beam.from_file, Beam.generate_from_file. rewrite Hr. cbn.
      by apply check_empty.
    + intros [->|H0]; [apply rows_to_zero | by apply rows_to_empty].
  - intros g g' n a arr Hgen Hn. apply (from_5d_sigma_matrix_empty _ _ _ _ _ _ Hgen).
    destruct Hn as [->|H0]; [|done]. by eapply generate_zero_rows.
  - intros g g' n kwargs a arr Hkeys Ha Hgen Hn.
    unfold Beam.from_twiss_parameters. rewrite decide_False.
    + rewrite Ha. apply (from_5d_sigma_matrix_empty _ _ _ _ _ _ Hgen).
      destruct Hn as [->|H0]; [|done]. by eapply generate_zero_rows.
    + rewrite keys_test. intros (k & Hk & Hnk). by apply Hnk, Hkeys.
Qed.

End Sampler.

End Beam_world.

(** ** The beam in the example world *)

Section Beam_examples.

Import Beam Example.

(** A misspelt keyword among valid ones, with the generator at state 0:
    the exception, the beam unchanged, the generator still at 0. *)
Lemma from_twiss_parameters_invalid_witness :
  let kwargs := <[ "BETA" := Int 2 ]> (twiss_kwargs (Int 2) (Int 0) (Float 1e-6)) in
  ("BETA" ∈ dom kwargs ∧ "BETA" ∉ keys)
  ∧ from_twiss_parameters example_read_csv nat example_sampler example_beam 0%nat 1000 kwargs =
      (example_beam, 0%nat, Raise (ZgoubidooBeamException invalid_argument)).
Proof.
  intros kwargs.
  assert (H1 : "BETA" ∈ dom kwargs).
  { apply elem_of_dom. exists (Int 2). reflexivity. }
  assert (H2 : "BETA" ∉ keys).
  { apply (bool_decide_unpack _). vm_compute. reflexivity. }
  split; [by split|].
  exact (from_twiss_parameters_invalid example_read_csv nat example_sampler
           example_beam 0%nat 1000 kwargs "BETA" H1 H2).
Defined.

(** Loading none of the rows of a file, loading a file without rows, and
    sampling zero particles from Twiss parameters. *)
Lemma zero_rows_raise_witness :
  let kwargs := twiss_kwargs (Int 2) (Int 0) (Float 1e-6) in
  (∀ g mean cov n, length (example_sampler g mean cov n).2 = n)
  ∧ (from_file example_read_csv example_beam "beam.csv" (Some 0) "." =
       (set_distribution example_beam
          (Some {| columns := Objet2.coordinates; values := [] |}),
        Raise empty_distribution))
  ∧ (from_file example_read_csv example_beam "empty.csv" None "." =
       (set_distribution example_beam
          (Some {| columns := Objet2.coordinates; values := [] |}),
        Raise empty_distribution))
  ∧ (∃ d, Pd.shape0 d = 0%nat
       ∧ from_twiss_parameters example_read_csv nat example_sampler example_beam 0%nat 0 kwargs =
           (set_distribution example_beam (Some d), 1%nat, Raise empty_distribution)).
Proof.
  intros kwargs.
  assert (Hs : ∀ g mean cov n, length (example_sampler g mean cov n).2 = n).
  { intros g mean cov n. apply length_replicate. }
  destruct (zero_rows_raise example_read_csv nat example_sampler Hs example_beam)
    as (_ & _ & _ & Hfile & _ & Htwiss).
  split; [exact Hs|]. split; [|split].
  - destruct (Hfile "beam.csv"%string (Some 0) "."%string
                {| columns := Objet2.coordinates;
                   values := [[1; 0; 0; 0; 0]; [2; 0; 0; 0; 0]; [3; 0; 0; 0; 0]]%float |}
                eq_refl) as [H _].
    apply H. reflexivity.
  - destruct (Hfile "empty.csv"%string None "."%string
                {| columns := Objet2.coordinates; values := [] |} eq_refl) as [H _].
    apply H. reflexivity.
  - eapply (Htwiss 0%nat 1%nat 0 kwargs).
    + intros k Hk. apply elem_of_dom in Hk as [v Hv]. unfold kwargs, twiss_kwargs in Hv.
      cbn [list_to_map foldr uncurry] in Hv.
      repeat (apply lookup_insert_Some in Hv as [[<- _]|[_ Hv]];
                [apply (bool_decide_unpack _); vm_compute; reflexivity|]).
      by rewrite lookup_empty in Hv.
    + vm_compute. reflexivity.
    + vm_compute. reflexivity.
    + by left.
Defined.

End Beam_examples.

(** * Further properties of the code *)

(** ** The population store, beyond single reads *)

Section Objet2_more.

Import Objet2.

Lemma normalized_row_five (r : list float) :
  length r = 5%nat →
  ∃ cy ct cz cp cd, r = [cy; ct; cz; cp; cd]
    ∧ normalized_row r = [cy; ct; cz; cp; 0; cd + 1; 1]%float.
Proof.
  destruct r as [|cy [|ct [|cz [|cp [|cd [|? ?]]]]]]; try discriminate.
  intros _. by exists cy, ct, cz, cp, cd.
Qed.

(** X1.  A read that returns settles the store: the value it returned is
    what the store now holds, and reading again returns the same value and
    changes nothing more. *)
Theorem PARTICULES_settles (self self' : t) (v : pyobj) :
  PARTICULES self = (self', Ok v) →
  _PARTICULES self' = v ∧ PARTICULES self' = (self', Ok v).
Proof.
  destruct self as [l p]. unfold PARTICULES at 1.
  destruct p as [ | n | rows | a | d]; cbn [_PARTICULES].
  3: { destruct (asarray (PyList rows)) as [a'|e]; cbn [mbind result_bind];
       [destruct (reshape_1 7 a') as [b|e]|]; cbn [mbind result_bind set_PARTICULES _PARTICULES].
       all: intros [= <- <-]; done. }
  all: cbn; intros [= <- <-]; done.
Qed.

Lemma PARTICULES_settles_witness :
  let self := post_init "BUNCH" in
  let dflt := PyArray (Array2 7 [[0; 0; 0; 0; 0; 1; 1]%float]) in
  PARTICULES self = (set_PARTICULES self dflt, Ok dflt)
  ∧ _PARTICULES (set_PARTICULES self dflt) = dflt
  ∧ PARTICULES (set_PARTICULES self dflt) = (set_PARTICULES self dflt, Ok dflt).
Proof.
  intros self dflt. split; [reflexivity|].
  exact (PARTICULES_settles self (set_PARTICULES self dflt) dflt eq_refl).
Defined.

(** X2.  A store holding a nested list is read as the one-row block of
    the list's cells when the rows have one length and seven cells in
    all; a list with any other number of cells (two particles, say) makes
    every read raise [ValueError] and stays in the store. *)
Theorem PARTICULES_of_list (self : t) (rows : list (list float)) :
  _PARTICULES self = PyList rows →
  (∀ r rest, rows = r :: rest → Forall (fun r' => length r' = length r) rest →
     length (concat rows) = 7%nat →
     PARTICULES self =
       (set_PARTICULES self (PyArray (Array2 7 [concat rows])),
        Ok (PyArray (Array2 7 [concat rows]))))
  ∧ (length (concat rows) ≠ 7%nat → PARTICULES self = (self, Raise ValueError)).
Proof.
  destruct self as [l p]. cbn [_PARTICULES]. intros ->. split.
  - intros r rest -> Hrect H7. unfold PARTICULES. cbn [_PARTICULES asarray].
    rewrite decide_True by done. cbn [mbind result_bind].
    unfold reshape_1. cbn [size ravel]. rewrite decide_True by done. reflexivity.
  - intros H7. unfold PARTICULES. cbn [_PARTICULES].
    destruct rows as [|r rest]; [reflexivity|]. cbn [asarray].
    destruct (decide _); [|reflexivity]. cbn [mbind result_bind].
    unfold reshape_1. cbn [size]. by rewrite decide_False.
Qed.

(** The list of survey.py, and a list of two particles. *)
Lemma PARTICULES_of_list_witness :
  let one := [[10; 0; 0; 0; 0; 1; 0]%float] in
  let two := [[10; 0; 0; 0; 0; 1; 0]; [20; 0; 0; 0; 0; 1; 0]]%float in
  let self rows := fst (add (post_init "BUNCH") (PyList rows)) in
  (_PARTICULES (self one) = PyList one ∧ _PARTICULES (self two) = PyList two)
  ∧ PARTICULES (self one) =
      (set_PARTICULES (self one) (PyArray (Array2 7 [[10; 0; 0; 0; 0; 1; 0]%float])),
       Ok (PyArray (Array2 7 [[10; 0; 0; 0; 0; 1; 0]%float])))
  ∧ PARTICULES (self two) = (self two, Raise ValueError).
Proof.
  intros one two self. split; [by split|]. split.
  - exact (proj1 (PARTICULES_of_list (self one) one eq_refl)
             [10; 0; 0; 0; 0; 1; 0]%float [] eq_refl (List.Forall_nil _) eq_refl).
  - apply (proj2 (PARTICULES_of_list (self two) two eq_refl)). discriminate.
Defined.

(** X3.  An unset store handed a table labelled (Y, T, Z, P, D) with one
    cell per column in every row keeps one row of seven cells per row of
    the table, in order: the four first coordinates, X = 0.0, D + 1.0 and
    IEX = 1.0; the next read returns that block. *)
Theorem add_coordinates_rows (self : t) (d : DataFrame) :
  _PARTICULES self = PyNone → columns d = coordinates → wf d →
  ∃ block,
    add self (PyFrame d) = (set_PARTICULES self (PyArray (Array2 7 block)), Ok ())
    ∧ PARTICULES (add self (PyFrame d)).1 =
        (set_PARTICULES self (PyArray (Array2 7 block)), Ok (PyArray (Array2 7 block)))
    ∧ length block = length (values d)
    ∧ Forall (fun r => length r = 7%nat) block
    ∧ ∀ i r, values d !! i = Some r →
        ∃ cy ct cz cp cd, r = [cy; ct; cz; cp; cd]
          ∧ block !! i = Some [cy; ct; cz; cp; 0; cd + 1; 1]%float.
Proof.
  intros Hs Hc Hwf. exists (normalized_row <$> values d).
  rewrite (add_coordinates_unset self d Hs Hc Hwf). cbn [fst].
  unfold wf in Hwf. rewrite Hc in Hwf. cbn [length coordinates] in Hwf.
  split; [done|]. split; [by destruct self|]. split; [by rewrite length_fmap|]. split.
  - apply Forall_fmap. eapply Forall_impl; [exact Hwf|]. intros r Hr. cbn.
    destruct (normalized_row_five r Hr) as (? & ? & ? & ? & ? & _ & ->). done.
  - intros i r Hi. rewrite Forall_lookup in Hwf. specialize (Hwf i r Hi).
    destruct (normalized_row_five r Hwf) as (cy & ct & cz & cp & cd & -> & Hn).
    exists cy, ct, cz, cp, cd. split; [done|].
    by rewrite list_lookup_fmap, Hi.
Qed.

Lemma add_coordinates_rows_witness :
  let d := {| columns := coordinates;
              values := [[1; 2; 3; 4; 0.5]; [5; 6; 7; 8; 0.25]]%float |} in
  let self := post_init "BUNCH" in
  (_PARTICULES self = PyNone ∧ columns d = coordinates ∧ wf d)
  ∧ ∃ block,
      add self (PyFrame d) = (set_PARTICULES self (PyArray (Array2 7 block)), Ok ())
      ∧ PARTICULES (add self (PyFrame d)).1 =
          (set_PARTICULES self (PyArray (Array2 7 block)), Ok (PyArray (Array2 7 block)))
      ∧ length block = length (values d)
      ∧ Forall (fun r => length r = 7%nat) block
      ∧ ∀ i r, values d !! i = Some r →
          ∃ cy ct cz cp cd, r = [cy; ct; cz; cp; cd]
            ∧ block !! i = Some [cy; ct; cz; cp; 0; cd + 1; 1]%float.
Proof.
  intros d self.
  assert (Hwf : wf d) by (repeat constructor).
  split; [by repeat split|].
  exact (add_coordinates_rows self d eq_refl eq_refl Hwf).
Defined.

(** X4.  On a store holding a block, appending blocks of the same width
    composes: adding [a] and then [b] leaves what adding [a ++ b] at once
    leaves, the rows in order after the rows held.  A block of another
    width is refused with [ValueError] and the store keeps its rows. *)
Theorem add_blocks (self : t) (c : nat) (rows a b : list (list float)) :
  _PARTICULES self = PyArray (Array2 c rows) →
  add self (PyArray (Array2 c a)) =
    (set_PARTICULES self (PyArray (Array2 c (rows ++ a))), Ok ())
  ∧ add (add self (PyArray (Array2 c a))).1 (PyArray (Array2 c b)) =
      add self (PyArray (Array2 c (a ++ b)))
  ∧ (∀ c', c' ≠ c → add self (PyArray (Array2 c' a)) = (self, Raise ValueError)).
Proof.
  destruct self as [l p]. cbn [_PARTICULES]. intros ->.
  assert (Hadd : ∀ l0 rows0 x,
             add {| LABEL1 := l0; _PARTICULES := PyArray (Array2 c rows0) |}
                 (PyArray (Array2 c x)) =
             ({| LABEL1 := l0; _PARTICULES := PyArray (Array2 c (rows0 ++ x)) |}, Ok ())).
  { intros l0 rows0 x. unfold add, np_append. cbn. by rewrite decide_True. }
  split; [apply Hadd|]. split.
  - rewrite !Hadd. cbn [fst]. rewrite Hadd. by rewrite app_assoc.
  - intros c' Hc. unfold add, np_append. cbn. rewrite decide_False; [done|].
    intros ->. by apply Hc.
Qed.

Lemma add_blocks_witness :
  let row v := [v; 0; 0; 0; 0; 1; 1]%float in
  let self := set_PARTICULES (post_init "BUNCH") (PyArray (Array2 7 [row 1%float])) in
  _PARTICULES self = PyArray (Array2 7 [row 1%float])
  ∧ add self (PyArray (Array2 7 [row 2%float])) =
      (set_PARTICULES self (PyArray (Array2 7 [row 1%float; row 2%float])), Ok ())
  ∧ add (add self (PyArray (Array2 7 [row 2%float]))).1 (PyArray (Array2 7 [row 3%float])) =
      add self (PyArray (Array2 7 [row 2%float; row 3%float]))
  ∧ (∀ c', c' ≠ 7%nat →
       add self (PyArray (Array2 c' [row 2%float])) = (self, Raise ValueError)).
Proof.
  intros row self. split; [reflexivity|].
  exact (add_blocks self 7 [row 1%float] [row 2%float] [row 3%float] eq_refl).
Defined.

(** X5.  The store never holds a labelled table: a table handed to [add]
    leaves its values as an array or leaves nothing, so from a fresh
    object no sequence of [add], [clear] and reads puts a table in
    [_PARTICULES]. *)
Theorem store_holds_no_table (self : t) (p : pyobj) :
  (∀ d, _PARTICULES self ≠ PyFrame d) →
  (∀ d, _PARTICULES (add self p).1 ≠ PyFrame d)
  ∧ (∀ d, _PARTICULES (PARTICULES self).1 ≠ PyFrame d)
  ∧ (∀ d, _PARTICULES (clear self) ≠ PyFrame d).
Proof.
  destruct self as [l s]. cbn [_PARTICULES]. intros Hs.
  assert (Happ : ∀ d, _PARTICULES
            (match np_append s p with
             | Ok a => (set_PARTICULES {| LABEL1 := l; _PARTICULES := s |} (PyArray a), Ok ())
             | Raise e => ({| LABEL1 := l; _PARTICULES := s |}, Raise e)
             end).1 ≠ PyFrame d).
  { intros d. destruct (np_append s p); cbn; [congruence | apply Hs]. }
  split; [|split].
  - intros d. unfold add. cbn [_PARTICULES].
    destruct s as [ | n | rows | a | d0]; try apply Happ.
    destruct p as [ | n | rows | a | d0]; cbn; try congruence.
    destruct (decide _); [|cbn; congruence].
    destruct (normalize d0); cbn; congruence.
  - intros d. unfold PARTICULES. cbn [_PARTICULES].
    destruct s as [ | n | rows | a | d0].
    1, 2, 4: by vm_compute.
    + destruct (asarray (PyList rows)) as [a'|e]; cbn [mbind result_bind];
        [destruct (reshape_1 7 a') as [b|e]|]; cbn; congruence.
    + cbn. apply Hs.
  - intros d. cbn. congruence.
Qed.

Lemma store_holds_no_table_witness :
  let self := post_init "BUNCH" in
  let p := PyFrame {| columns := coordinates; values := [[1; 2; 3; 4; 0.5]%float] |} in
  (∀ d, _PARTICULES self ≠ PyFrame d)
  ∧ (∀ d, _PARTICULES (add self p).1 ≠ PyFrame d)
  ∧ (∀ d, _PARTICULES (PARTICULES self).1 ≠ PyFrame d)
  ∧ (∀ d, _PARTICULES (clear self) ≠ PyFrame d).
Proof.
  intros self p.
  assert (H : ∀ d, _PARTICULES self ≠ PyFrame d) by (intros d; discriminate).
  split; [exact H|]. exact (store_holds_no_table self p H).
Defined.

End Objet2_more.

(** ** From the slice to the object *)

Section Beam_more.

Import Beam.

Lemma window_wf (self : t) (dist : DataFrame) :
  wf dist → Forall (fun r => length r = length (columns dist)) (window self dist).
Proof.
  unfold wf, window, Py.slice. intros H. by apply Forall_take, Forall_drop.
Qed.

Lemma objet_LABEL1 {Q} (brho : result Q) (self : t) (o : Objet2.t) :
  objet brho self = Ok o → Objet2.LABEL1 o = LABEL1 self.
Proof.
  unfold objet. cbn [mbind result_bind]. destruct brho as [b|e0]; [|done]. cbn [mbind result_bind].
  destruct (active_slice self) as [v|e]; [|done].
  cbn [mbind result_bind].
  destruct (Objet2.add _ _) as [o' [[]|e]] eqn:Hadd; [|done].
  intros [= <-]. revert Hadd. unfold Objet2.add. cbn [Objet2._PARTICULES Objet2.post_init].
  destruct v as [d|].
  - destruct (decide _); [|by intros [= <-]].
    destruct (Objet2.normalize d); by intros [= <-].
  - by intros [= <-].
Qed.

(** X6.  With a population of five columns, one cell per column in every
    row, a slice count other than zero and a window that holds a row, the
    beam's [objet] is a fresh [Objet2] under the beam's label holding one
    seven-cell row per row of the window: the coordinates, X = 0.0, D
    shifted by 1.0 and IEX = 1.0. *)
Theorem objet_of_slice {Q} (b : Q) (self : t) (dist : DataFrame) :
  _distribution self = Some dist → wf dist → length (columns dist) = 5%nat →
  _slices self ≠ 0 → window self dist ≠ [] →
  objet (Ok b) self =
    Ok {| Objet2.LABEL1 := LABEL1 self;
          Objet2._PARTICULES :=
            PyArray (Array2 7 (Objet2.normalized_row <$> window self dist)) |}.
Proof.
  intros H Hwf H5 Hk Hw. unfold objet. cbn [mbind result_bind].
  rewrite (active_slice_five self dist H Hk H5). rewrite decide_False by done.
  cbn [mbind result_bind].
  rewrite (add_coordinates_unset (Objet2.post_init (LABEL1 self))
             {| columns := Objet2.coordinates; values := window self dist |});
    [done | done | done |].
  unfold wf. cbn [values columns]. pose proof (window_wf self dist Hwf) as Hf.
  by rewrite H5 in Hf.
Qed.

(** Seven particles in three slices: the object of slice 1 holds
    particles 2 and 3. *)
Lemma objet_of_slice_witness :
  let dist := {| columns := Pos <$> range0 5;
                 values := (fun i => [Z2float i; 0; 0; 0; 0.5]%float) <$> range0 7 |} in
  let self := {| LABEL1 := "BEAM"; SLICE := 1; REFERENCE := 0; _slices := 3;
                 _distribution := Some dist |} in
  (_distribution self = Some dist ∧ wf dist ∧ length (columns dist) = 5%nat
   ∧ _slices self ≠ 0 ∧ window self dist ≠ [])
  ∧ objet (Ok tt) self =
      Ok {| Objet2.LABEL1 := "BEAM";
            Objet2._PARTICULES :=
              PyArray (Array2 7 [[2; 0; 0; 0; 0; 1.5; 1]; [3; 0; 0; 0; 0; 1.5; 1]]%float) |}.
Proof.
  intros dist self.
  assert (Hwf : wf dist) by (repeat constructor).
  assert (Hw : window self dist ≠ []) by (vm_compute; discriminate).
  assert (Hk : _slices self ≠ 0) by discriminate.
  split; [by repeat split|].
  exact (objet_of_slice tt self dist eq_refl Hwf eq_refl Hk Hw).
Defined.

(** X7.  A beam with no data for its slice still gives an object: without
    a population, or with a five-column population whose window is empty,
    [objet] is the fresh, unset [Objet2], which reads as the default
    single particle.  The window is empty for every slice index once
    there are more slices than rows. *)
Theorem objet_without_slice {Q} (b : Q) (self : t) :
  (_distribution self = None → objet (Ok b) self = Ok (Objet2.post_init (LABEL1 self)))
  ∧ (∀ dist, _distribution self = Some dist → length (columns dist) = 5%nat →
       _slices self ≠ 0 →
       (window self dist = [] → objet (Ok b) self = Ok (Objet2.post_init (LABEL1 self)))
       ∧ (Z.of_nat (Pd.shape0 dist) < _slices self → window self dist = []))
  ∧ Objet2.PARTICULES (Objet2.post_init (LABEL1 self)) =
      (Objet2.set_PARTICULES (Objet2.post_init (LABEL1 self))
         (PyArray (Array2 7 [Objet2.default_row])),
       Ok (PyArray (Array2 7 [Objet2.default_row]))).
Proof.
  split; [|split; [|reflexivity]].
  - intros H. unfold objet. cbn [mbind result_bind]. by rewrite (active_slice_unset self H).
  - intros dist H H5 Hk. split.
    + intros Hw. unfold objet. cbn [mbind result_bind]. rewrite (active_slice_five self dist H Hk H5).
      by rewrite decide_True.
    + intros Hlt. unfold window.
      rewrite Z.div_small by lia. rewrite !Z.mul_0_r.
      unfold Py.slice.
      replace (slice_bound (length (values dist)) 0) with 0%nat
        by (unfold slice_bound; simpl; lia).
      reflexivity.
Qed.

(** Two particles cut into three slices: no slice holds a particle, and
    the object of slice 0 is unset. *)
Lemma objet_without_slice_witness :
  let dist := {| columns := Pos <$> range0 5;
                 values := [[1; 0; 0; 0; 0]; [2; 0; 0; 0; 0]]%float |} in
  let self := {| LABEL1 := "BEAM"; SLICE := 0; REFERENCE := 0; _slices := 3;
                 _distribution := Some dist |} in
  window self dist = [] ∧ objet (Ok tt) self = Ok (Objet2.post_init "BEAM").
Proof.
  intros dist self.
  destruct (proj1 (proj2 (objet_without_slice tt self)) dist eq_refl eq_refl)
    as [Hobj Hwin]; [discriminate|].
  assert (Hw : window self dist = []) by (apply Hwin; cbn; lia).
  split; [exact Hw | exact (Hobj Hw)].
Defined.

(** X8.  With [REFERENCE] set to 1 the object that [__str__] prints is the
    beam's object cleared: the unset [Objet2] under the beam's label,
    whatever the population holds; but the rigidity is still read and the
    slice still taken first, so what [objet] raises, [__str__] raises too:
    the exception of the kinematics before any of the slice. *)
Theorem printed_reference {Q} (brho : result Q) (self : t) :
  REFERENCE self = 1 →
  (∀ o, objet brho self = Ok o → printed brho self = Ok (Objet2.post_init (LABEL1 self)))
  ∧ (∀ e, objet brho self = Raise e → printed brho self = Raise e)
  ∧ (∀ e, brho = Raise e → printed brho self = Raise e).
Proof.
  intros Href. unfold printed. rewrite decide_True by done. split; [|split].
  - intros o Ho. rewrite Ho. cbn [mbind result_bind].
    unfold Objet2.clear, Objet2.set_PARTICULES, Objet2.post_init.
    by rewrite (objet_LABEL1 brho self o Ho).
  - intros e He. by rewrite He.
  - intros e ->. reflexivity.
Qed.

Lemma printed_reference_witness :
  let five := {| columns := Pos <$> range0 5; values := [[1; 0; 0; 0; 0]%float] |} in
  let seven := {| columns := Objet2.layout; values := [[1; 0; 0; 0; 0; 1; 1]%float] |} in
  let self d := {| LABEL1 := "BEAM"; SLICE := 0; REFERENCE := 1; _slices := 1;
                   _distribution := Some d |} in
  printed (Ok tt) (self five) = Ok (Objet2.post_init "BEAM")
  ∧ printed (Ok tt) (self seven) = Raise ValueError
  ∧ printed (Raise TypeError : result ()) (self seven) = Raise TypeError.
Proof.
  intros five seven self. split; [|split].
  - eapply (proj1 (printed_reference (Ok tt) (self five) eq_refl)). reflexivity.
  - apply (proj1 (proj2 (printed_reference (Ok tt) (self seven) eq_refl))). reflexivity.
  - apply (proj2 (proj2 (printed_reference (Raise TypeError) (self seven) eq_refl))).
    reflexivity.
Defined.

End Beam_more.

(** ** The covariance matrix *)

Section Beam_matrix.

Import Beam.

Lemma to_float_zero : to_float (Int 0) = Ok 0%float.
Proof. vm_compute. reflexivity. Qed.

(** The record [from_twiss_parameters] passes on, field by field. *)
Lemma twiss_sigma_fields (kwargs : gmap string num) (a : sigma) :
  twiss_sigma kwargs = Ok a →
  [x a; px a; y a; py a; dpp a] =
    [get kwargs "X" (Int 0); get kwargs "PX" (Int 0); get kwargs "Y" (Int 0);
     get kwargs "PY" (Int 0); get kwargs "DPP" (Int 0)]
  ∧ dpprms a = get kwargs "DPPRMS" (Int 0)
  ∧ [s13 a; s14 a; s15 a; s23 a; s24 a; s25 a; s35 a; s45 a] = replicate 8 (Int 0).
Proof.
  unfold twiss_sigma. intros H.
  repeat (apply bind_Ok in H as (? & _ & H)).
  by injection H as <-.
Qed.

(** X9.  The matrix built from the second moments is symmetric, whatever
    the arguments: the entry at (i, j) is the entry at (j, i). *)
Theorem sigma_matrix_symmetric (a : sigma) (s55 : num) (cov : ndarray) :
  sigma_matrix a s55 = Ok cov → ∀ i j, entry cov i j = entry cov j i.
Proof.
  unfold sigma_matrix. intros H. cbn in H.
  repeat match type of H with
         | context [to_float ?v] =>
             destruct (to_float v) eqn:?; cbn in H; try discriminate H
         end.
  injection H as <-. intros i j.
  do 6 (destruct i as [|i]; [do 6 (destruct j as [|j]; [reflexivity|]); reflexivity|]).
  do 6 (destruct j as [|j]; [reflexivity|]). reflexivity.
Qed.

Lemma sigma_matrix_symmetric_witness :
  let a := {| x := Int 0; px := Int 0; y := Int 0; py := Int 0; dpp := Int 0;
              s11 := Float 4; s12 := Float 0.5; s13 := Float 0.25; s14 := Int 0;
              s15 := Int 0; s22 := Float 1; s23 := Int 0; s24 := Int 0; s25 := Int 0;
              s33 := Float 9; s34 := Float (-1.5); s35 := Int 0; s44 := Float 1;
              s45 := Int 0; dpprms := Float 0.001; matrix := None |} in
  ∃ cov, sigma_matrix a (Float 0.000001) = Ok cov
    ∧ entry cov 0 1 = Some 0.5%float ∧ entry cov 2 0 = Some 0.25%float
    ∧ ∀ i j, entry cov i j = entry cov j i.
Proof.
  intros a. eexists. split; [vm_compute; reflexivity|].
  split; [reflexivity|]. split; [reflexivity|].
  apply (sigma_matrix_symmetric a (Float 0.000001)). vm_compute. reflexivity.
Defined.

(** X10.  The matrix built from Twiss parameters couples nothing across
    the planes: its entries between the X plane and the Y plane are 0, the
    momentum row and column are 0 off the diagonal, and the momentum
    variance is [DPPRMS ** 2]. *)
Theorem twiss_matrix_blocks (kwargs : gmap string num) (cov : ndarray) :
  twiss_matrix kwargs = Ok cov →
  (∀ i j, (i < 2)%nat → (2 ≤ j < 4)%nat →
     entry cov i j = Some 0%float ∧ entry cov j i = Some 0%float)
  ∧ (∀ i, (i < 4)%nat → entry cov i 4 = Some 0%float ∧ entry cov 4 i = Some 0%float)
  ∧ ∃ s55 v, pow2 (get kwargs "DPPRMS" (Int 0)) = Ok s55
      ∧ to_float s55 = Ok v ∧ entry cov 4 4 = Some v.
Proof.
  unfold twiss_matrix. intros H.
  apply bind_Ok in H as (a & Ha & H). apply bind_Ok in H as (s55 & Hs & H).
  destruct (twiss_sigma_fields kwargs a Ha) as (_ & Hd & Hz).
  injection Hz as Hs13 Hs14 Hs15 Hs23 Hs24 Hs25 Hs35 Hs45.
  unfold sigma_matrix in H.
  rewrite Hs13, Hs14, Hs15, Hs23, Hs24, Hs25, Hs35, Hs45 in H.
  cbn -[to_float] in H. rewrite !to_float_zero in H. cbn -[to_float] in H.
  repeat match type of H with
         | context [to_float ?v] =>
             destruct (to_float v) eqn:?; cbn in H; try discriminate H
         end.
  injection H as <-. split; [|split].
  - intros i j Hi Hj.
    destruct i as [|[|i]]; [| |lia]; destruct j as [|[|[|[|j]]]]; try lia; by split.
  - intros i Hi. destruct i as [|[|[|[|i]]]]; try lia; by split.
  - rewrite <- Hd.
    match goal with E : to_float s55 = Ok ?v |- _ => exists s55, v end. done.
Qed.

Lemma twiss_matrix_blocks_witness :
  let kwargs := <[ "DPPRMS" := Float 0.001 ]> (twiss_kwargs (Float 2) (Float 0.5) (Float 1e-6)) in
  ∃ cov, twiss_matrix kwargs = Ok cov
    ∧ (∀ i j, (i < 2)%nat → (2 ≤ j < 4)%nat →
         entry cov i j = Some 0%float ∧ entry cov j i = Some 0%float)
    ∧ (∀ i, (i < 4)%nat → entry cov i 4 = Some 0%float ∧ entry cov 4 i = Some 0%float)
    ∧ entry cov 4 4 = Some (0.001 * 0.001)%float.
Proof.
  intros kwargs. eexists. split; [vm_compute; reflexivity|].
  match goal with
  | |- context [entry ?c 4 4] =>
      destruct (twiss_matrix_blocks kwargs c) as (H1 & H2 & _)
  end; [vm_compute; reflexivity|].
  split; [exact H1|]. split; [exact H2|]. reflexivity.
Defined.

End Beam_matrix.

(** ** What building the distribution leaves behind *)

Lemma mapM_Ok_length {A B} (f : A → result B) (l : list A) (k : list B) :
  mapM f l = Ok k → length k = length l.
Proof.
  revert k. induction l as [|a l IH]; intros k; cbn.
  - by intros [= <-].
  - intros H. apply bind_Ok in H as (b & _ & H). apply bind_Ok in H as (k' & Hk & H).
    injection H as <-. cbn. by rewrite (IH k' Hk).
Qed.

Section Beam_world_more.

Import Beam.

Variable read_csv : string → result DataFrame.
Variable rng : Type.
Variable multivariate_normal :
  rng → list float → ndarray → nat → rng * list (list float).

Abbreviation generate_from_file := (generate_from_file read_csv).
Abbreviation _initialize_distribution := (_initialize_distribution read_csv).
Abbreviation from_file := (from_file read_csv).
Abbreviation generator := (generator rng multivariate_normal).
Abbreviation generate_from_5d_sigma_matrix :=
  (generate_from_5d_sigma_matrix rng multivariate_normal).
Abbreviation from_5d_sigma_matrix := (from_5d_sigma_matrix read_csv rng multivariate_normal).
Abbreviation from_twiss_parameters := (from_twiss_parameters read_csv rng multivariate_normal).

Lemma check_inv (self self' : t) (d : DataFrame) (r : result unit) :
  check self d = (self', r) →
  self' = set_distribution self (Some d)
  ∧ ((r = Ok () ∧ Pd.shape0 d ≠ 0%nat) ∨ (r = Raise empty_distribution ∧ Pd.shape0 d = 0%nat)).
Proof.
  unfold check. destruct (decide _); intros [= <- <-]; split; auto.
Qed.

Lemma generate_raise (g g' : rng) (n : Z) (a : sigma) (e : exception) :
  generate_from_5d_sigma_matrix g n a = (g', Raise e) → g' = g.
Proof.
  assert (Hgen : ∀ mean cov, generator g mean cov n = (g', Raise e) → g' = g).
  { intros mean cov. unfold Beam.generator.
    destruct (mapM to_float mean); [|by intros [= <-]].
    destruct (n <? 0); [by intros [= <-]|].
    by destruct (multivariate_normal _ _ _ _). }
  unfold Beam.generate_from_5d_sigma_matrix.
  destruct (pow2 (dpprms a)); [|by intros [= <-]].
  destruct (matrix a) as [m|].
  - destruct m as [ | l | c rows]; try by intros [= <-].
    do 6 (destruct c as [|c]; try by intros [= <-]).
    destruct (decide _); [apply Hgen | by intros [= <-]].
  - destruct (sigma_matrix a _); [apply Hgen | by intros [= <-]].
Qed.

Lemma from_5d_sigma_matrix_inv (self self' : t) (g g' : rng) (n : Z) (a : sigma)
    (r : result unit) :
  from_5d_sigma_matrix self g n a = (self', g', r) →
  (∃ e, r = Raise e ∧ self' = self ∧ g' = g
        ∧ generate_from_5d_sigma_matrix g n a = (g, Raise e))
  ∨ (∃ c rows, generate_from_5d_sigma_matrix g n a = (g', Ok (Array2 c rows))
       ∧ check self {| columns := Pos <$> range0 (Z.of_nat c); values := rows |} = (self', r)).
Proof.
  unfold Beam.from_5d_sigma_matrix.
  destruct (generate_from_5d_sigma_matrix g n a) as [g1 [arr|e]] eqn:Hgen.
  - pose proof Hgen as Hshape.
    apply generate_from_5d_sigma_matrix_Ok in Hshape as (mean & cov & Hshape).
    apply generator_Ok in Hshape as (fmean & _ & _ & _ & ->).
    cbn [pd_DataFrame Beam._initialize_distribution].
    destruct (check _ _) as [s1 r1] eqn:Hc. intros [= <- <- <-]. right. eauto.
  - intros [= <- <- <-]. left. exists e.
    pose proof (generate_raise _ _ _ _ _ Hgen) as ->. done.
Qed.

(** X11.  A method that returns normally leaves a population of at least
    one row: [_initialize_distribution] either stored such a table or,
    given nothing to load, left the beam as it was; [from_file],
    [from_5d_sigma_matrix] and [from_twiss_parameters] always stored
    one. *)
Theorem normal_return_has_rows (self self' : t) :
  (∀ distribution args kwargs,
     _initialize_distribution self distribution args kwargs = (self', Ok ()) →
     (self' = self ∧ distribution = None ∧ kwargs !! "filename" = None)
     ∨ ∃ d, self' = set_distribution self (Some d) ∧ Pd.shape0 d ≠ 0%nat)
  ∧ (∀ file n path, from_file self file n path = (self', Ok ()) →
       ∃ d, self' = set_distribution self (Some d) ∧ Pd.shape0 d ≠ 0%nat)
  ∧ (∀ g g' n a, from_5d_sigma_matrix self g n a = (self', g', Ok ()) →
       ∃ d, self' = set_distribution self (Some d) ∧ Pd.shape0 d ≠ 0%nat)
  ∧ (∀ g g' n kwargs, from_twiss_parameters self g n kwargs = (self', g', Ok ()) →
       ∃ d, self' = set_distribution self (Some d) ∧ Pd.shape0 d ≠ 0%nat).
Proof.
  assert (Hcheck : ∀ d, check self d = (self', Ok ()) →
            ∃ d, self' = set_distribution self (Some d) ∧ Pd.shape0 d ≠ 0%nat).
  { intros d Hc. apply check_inv in Hc as (-> & [[_ Hn]|[[=] _]]). eauto. }
  assert (H5d : ∀ g g' n a, from_5d_sigma_matrix self g n a = (self', g', Ok ()) →
            ∃ d, self' = set_distribution self (Some d) ∧ Pd.shape0 d ≠ 0%nat).
  { intros g g' n a H.
    apply from_5d_sigma_matrix_inv in H as [(e & [=] & _)|(c & rows & _ & Hc)]. eauto. }
  split; [|split; [|split]].
  - intros distribution args kwargs. unfold Beam._initialize_distribution.
    destruct distribution as [d|]; [right; eauto|].
    destruct (match args with [] => _ | a :: _ => _ end) as [d|e]; [right; eauto|].
    assert (Hfile : match kwargs !! "filename" with
                    | Some filename =>
                        match generate_from_file filename (get kwargs "path" ".") None with
                        | Ok d => check self d
                        | Raise e => (self, Raise e)
                        end
                    | None => (self, Ok ())
                    end = (self', Ok ()) →
                    (self' = self ∧ None = None (A:=DataFrame) ∧ kwargs !! "filename" = None)
                    ∨ ∃ d, self' = set_distribution self (Some d) ∧ Pd.shape0 d ≠ 0%nat).
    { destruct (kwargs !! "filename") as [f|]; [|intros [= <-]; by left].
      destruct (generate_from_file _ _ _); [right; eauto | done]. }
    destruct e; try done; apply Hfile.
  - intros file n path. unfold Beam.from_file.
    destruct (generate_from_file file path n); [|done]. cbn. eauto.
  - exact H5d.
  - intros g g' n kwargs. unfold Beam.from_twiss_parameters.
    destruct (decide _); [done|]. destruct (twiss_sigma kwargs); [eauto | done].
Qed.

(** X12.  [from_file] keeps the first [n] rows of the table, all of them
    when [n] is [None] or at least the number of rows, and all but the
    last [-n] when [n] is negative; it returns normally exactly when a row
    is kept.  When the file cannot be read, the exception of the reader
    comes out unchanged and the beam is as it was. *)
Theorem from_file_rows (self : t) (file path : string) (n : option Z) :
  (∀ d, read_csv (os_path_join path file) = Ok d →
     ∃ kept,
       from_file self file n path =
         (set_distribution self (Some {| columns := columns d; values := kept |}),
          if decide (kept = []) then Raise empty_distribution else Ok ())
       ∧ match n with
         | None => kept = values d
         | Some n =>
             (0 ≤ n → kept = take (Z.to_nat n) (values d))
             ∧ (Z.of_nat (length (values d)) ≤ n → kept = values d)
             ∧ (n < 0 → kept = take (length (values d) - Z.to_nat (- n)) (values d))
         end)
  ∧ (∀ e, read_csv (os_path_join path file) = Raise e →
       from_file self file n path = (self, Raise e)).
Proof.
  split.
  - intros d Hr. exists (Py.slice_to (values d) n). split.
    + unfold Beam.from_file, Beam.generate_from_file. rewrite Hr.
      cbn [mbind result_bind Beam._initialize_distribution].
      unfold check, rows_to, Pd.shape0. cbn [values].
      destruct (decide (Py.slice_to (values d) n = [])) as [E|E].
      * rewrite E. reflexivity.
      * rewrite decide_False; [done|]. intros H0. by apply E, nil_length_inv.
    + destruct n as [n|]; [|done]. unfold Py.slice_to, Py.slice.
      replace (slice_bound (length (values d)) 0) with 0%nat
        by (unfold slice_bound; simpl; lia).
      rewrite drop_0, Nat.sub_0_r. split; [|split]; intros Hn.
      * unfold slice_bound. destruct (Z.ltb_spec n 0); [lia|].
        destruct (decide (n ≤ Z.of_nat (length (values d)))).
        -- f_equal. lia.
        -- rewrite !take_ge by lia. done.
      * unfold slice_bound. destruct (Z.ltb_spec n 0); [lia|]. apply take_ge. lia.
      * unfold slice_bound. destruct (Z.ltb_spec n 0); [|lia]. f_equal. lia.
  - intros e Hr. unfold Beam.from_file, Beam.generate_from_file. by rewrite Hr.
Qed.


(** X14.  A matrix handed in with shape (5, 5) goes to the sampler as it
    is, with the mean (x, px, y, py, dpp): the second moments s11 .. s45
    play no part.  A matrix of any other shape stops the method with
    [AssertionError] before anything is drawn.  ([dpprms ** 2] is computed
    first in both cases.) *)
Theorem explicit_matrix (g : rng) (n : Z) (a : sigma) (m : ndarray) (s55 : num) :
  matrix a = Some m → pow2 (dpprms a) = Ok s55 →
  (∀ rows, m = Array2 5 rows → length rows = 5%nat →
     generate_from_5d_sigma_matrix g n a =
       generator g [x a; px a; y a; py a; dpp a] m n)
  ∧ ((∀ rows, m = Array2 5 rows → length rows ≠ 5%nat) →
       generate_from_5d_sigma_matrix g n a = (g, Raise AssertionError)).
Proof.
  intros Hm Hs. unfold Beam.generate_from_5d_sigma_matrix. rewrite Hs, Hm. split.
  - intros rows -> H5. by rewrite decide_True.
  - intros Hshape. destruct m as [ | l | c rows]; try done.
    do 6 (destruct c as [|c]; try done).
    rewrite decide_False; [done|]. by apply Hshape.
Qed.


Section Sampler_more.

Hypothesis sample_rows :
  ∀ g mean cov n, length (multivariate_normal g mean cov n).2 = n.

(** X16.  With accepted names, Twiss parameters whose arithmetic succeeds
    and [n >= 1], [from_twiss_parameters] draws once, [n] rows with the
    mean (X, PX, Y, PY, DPP) (0 where absent) and the Twiss matrix, and
    stores them as a table of [n] rows under the five positional labels
    0 .. 4; the random generator moves to the state the draw leaves. *)
Theorem from_twiss_parameters_draws (self : t) (g : rng) (n : Z)
    (kwargs : gmap string num) (cov : ndarray) (mean : list float) :
  (∀ k, k ∈ dom kwargs → k ∈ keys) →
  twiss_matrix kwargs = Ok cov →
  mapM to_float [get kwargs "X" (Int 0); get kwargs "PX" (Int 0); get kwargs "Y" (Int 0);
                 get kwargs "PY" (Int 0); get kwargs "DPP" (Int 0)] = Ok mean →
  1 ≤ n →
  let draw := multivariate_normal g mean cov (Z.to_nat n) in
  from_twiss_parameters self g n kwargs =
    (set_distribution self (Some {| columns := Pos <$> range0 5; values := draw.2 |}),
     draw.1, Ok ())
  ∧ Pd.shape0 {| columns := Pos <$> range0 5; values := draw.2 |} = Z.to_nat n.
Proof.
  intros Hkeys Hcov Hmean Hn draw.
  assert (Hrows : length draw.2 = Z.to_nat n) by apply sample_rows.
  split; [|exact Hrows].
  unfold Beam.from_twiss_parameters. rewrite decide_False.
  2: { rewrite (keys_test kwargs). intros (k & Hk & Hnk). by apply Hnk, Hkeys. }
  pose proof Hcov as Hcov'. unfold twiss_matrix in Hcov'.
  apply bind_Ok in Hcov' as (a & Ha & _). rewrite Ha.
  destruct (twiss_sigma_fields kwargs a Ha) as (Hm & _ & _).
  unfold Beam.from_5d_sigma_matrix.
  rewrite (generate_from_twiss rng multivariate_normal g n kwargs a cov Ha Hcov).
  unfold Beam.generator. rewrite Hm, Hmean.
  destruct (Z.ltb_spec n 0); [lia|].
  fold draw. destruct draw as [g1 rows] eqn:Hd. cbn [fst snd] in *.
  cbn [pd_DataFrame Beam._initialize_distribution].
  rewrite (mapM_Ok_length _ _ _ Hmean). cbn [length].
  rewrite check_rows; [done|]. unfold Pd.shape0. cbn [values]. lia.
Qed.

End Sampler_more.

End Beam_world_more.

(** ** The example world again *)

Section Beam_examples_more.

Import Beam Example.

Lemma example_sampler_rows :
  ∀ g mean cov n, length (example_sampler g mean cov n).2 = n.
Proof. intros g mean cov n. apply length_replicate. Qed.

(** Three particles drawn from Twiss parameters, and all three rows of a
    file kept. *)
Lemma normal_return_has_rows_witness :
  let kwargs := twiss_kwargs (Int 2) (Int 0) (Float 1e-6) in
  let drawn := (from_twiss_parameters example_read_csv nat example_sampler
                  example_beam 0%nat 3 kwargs).1.1 in
  let loaded := (from_file example_read_csv example_beam "beam.csv" None ".").1 in
  (∃ d, drawn = set_distribution example_beam (Some d) ∧ Pd.shape0 d ≠ 0%nat)
  ∧ (∃ d, loaded = set_distribution example_beam (Some d) ∧ Pd.shape0 d ≠ 0%nat).
Proof.
  intros kwargs drawn loaded. split.
  - eapply (proj2 (proj2 (proj2 (normal_return_has_rows example_read_csv nat
                                   example_sampler example_beam drawn)))
              0%nat 1%nat 3 kwargs).
    vm_compute. reflexivity.
  - eapply (proj1 (proj2 (normal_return_has_rows example_read_csv nat
                            example_sampler example_beam loaded))
              "beam.csv"%string None "."%string).
    vm_compute. reflexivity.
Defined.

(** A file of three rows read with limits 2, 5 and -1, and a file that is
    not there. *)
Lemma from_file_rows_witness :
  let row v := [v; 0; 0; 0; 0]%float in
  let kept rows := set_distribution example_beam
                     (Some {| columns := Objet2.coordinates; values := rows |}) in
  from_file example_read_csv example_beam "beam.csv" (Some 2) "." =
    (kept [row 1%float; row 2%float], Ok ())
  ∧ from_file example_read_csv example_beam "beam.csv" (Some 5) "." =
      (kept [row 1%float; row 2%float; row 3%float], Ok ())
  ∧ from_file example_read_csv example_beam "beam.csv" (Some (-1)) "." =
      (kept [row 1%float; row 2%float], Ok ())
  ∧ from_file example_read_csv example_beam "none.csv" None "." =
      (example_beam, Raise (OSError "No such file or directory")).
Proof.
  intros row kept.
  pose (d := {| columns := Objet2.coordinates;
                values := [row 1%float; row 2%float; row 3%float] |}).
  assert (Hcase : ∀ n rows,
            (∀ k, take k (values d) = rows → rows ≠ [] →
               match n with
               | None => k = 3%nat
               | Some n => (0 ≤ n → k = Z.to_nat n)
                           ∧ (n < 0 → k = (3 - Z.to_nat (- n))%nat)
               end →
               from_file example_read_csv example_beam "beam.csv" n "." = (kept rows, Ok ()))).
  { intros n rows k Hk Hne Hn.
    destruct (proj1 (from_file_rows example_read_csv example_beam
                       "beam.csv" "." n) d eq_refl) as (kept' & -> & Hkept).
    assert (kept' = rows) as ->.
    { destruct n as [n|].
      - destruct Hkept as (H0 & _ & Hneg). destruct Hn as [Hn0 Hnn].
        destruct (Z.ltb_spec n 0).
        + rewrite (Hneg ltac:(lia)). rewrite <- Hk. f_equal. rewrite Hnn by lia. done.
        + rewrite (H0 ltac:(lia)). rewrite <- Hk. f_equal. by rewrite Hn0 by lia.
      - subst k. by rewrite Hkept, <- Hk. }
    by rewrite decide_False. }
  split; [|split; [|split]].
  - apply (Hcase (Some 2) _ 2%nat); [reflexivity | discriminate | split; lia].
  - apply (Hcase (Some 5) _ 5%nat); [reflexivity | discriminate | split; lia].
  - apply (Hcase (Some (-1)) _ 2%nat); [reflexivity | discriminate | split; lia].
  - apply (proj2 (from_file_rows example_read_csv example_beam
                    "none.csv" "." None)). reflexivity.
Defined.


(** The identity matrix goes to the sampler whatever s11 .. s44 say; a
    matrix of four rows stops the call. *)
Lemma explicit_matrix_witness :
  let short := Array2 5 [[1; 0; 0; 0; 0]; [0; 1; 0; 0; 0]; [0; 0; 1; 0; 0];
                         [0; 0; 0; 1; 0]]%float in
  generate_from_5d_sigma_matrix nat example_sampler 0%nat 2 (example_sigma example_identity) =
    generator nat example_sampler 0%nat (replicate 5 (Int 0)) example_identity 2
  ∧ generate_from_5d_sigma_matrix nat example_sampler 0%nat 2 (example_sigma short) =
      (0%nat, Raise AssertionError).
Proof.
  intros short. split.
  - eapply (proj1 (explicit_matrix nat example_sampler 0%nat 2
                     (example_sigma example_identity) example_identity (Int 0)
                     eq_refl eq_refl)); reflexivity.
  - apply (proj2 (explicit_matrix nat example_sampler 0%nat 2
                    (example_sigma short) short (Int 0) eq_refl eq_refl)).
    intros rows [= <-]. discriminate.
Defined.


(** Three particles from beta = 2, alpha = 0, emittance 1e-6: one draw,
    three rows, five columns. *)
Lemma from_twiss_parameters_draws_witness :
  let kwargs := twiss_kwargs (Int 2) (Int 0) (Float 1e-6) in
  ∃ cov, twiss_matrix kwargs = Ok cov
    ∧ from_twiss_parameters example_read_csv nat example_sampler example_beam 0%nat 3 kwargs =
        (set_distribution example_beam
           (Some {| columns := Pos <$> range0 5;
                    values := replicate 3 [0; 0; 0; 0; 0]%float |}),
         1%nat, Ok ()).
Proof.
  intros kwargs. eexists. split; [vm_compute; reflexivity|].
  eapply (from_twiss_parameters_draws example_read_csv nat example_sampler
            example_sampler_rows example_beam 0%nat 3 kwargs).
  - intros k Hk. apply elem_of_dom in Hk as [v Hv]. unfold kwargs, twiss_kwargs in Hv.
    cbn [list_to_map foldr uncurry] in Hv.
    repeat (apply lookup_insert_Some in Hv as [[<- _]|[_ Hv]];
              [apply (bool_decide_unpack _); vm_compute; reflexivity|]).
    by rewrite lookup_empty in Hv.
  - vm_compute. reflexivity.
  - vm_compute. reflexivity.
  - lia.
Defined.

End Beam_examples_more.

(** ** Results of runs *)

Lemma mapM_Ok_Forall2 {A B} (f : A → result B) (l : list A) (k : list B) :
  mapM f l = Ok k ↔ Forall2 (fun a b => f a = Ok b) l k.
Proof.
  revert k. induction l as [|a l IH]; intros k; cbn.
  - split; [intros [= <-]; constructor | by inversion 1].
  - split.
    + intros H. apply bind_Ok in H as (b & Hb & H). apply bind_Ok in H as (k' & Hk & H).
      injection H as <-. constructor; [done | by apply IH].
    + inversion 1 as [|? b ? k' Hb Hk]; subst. rewrite Hb. cbn.
      apply IH in Hk. by rewrite Hk.
Qed.

Lemma mapM_Raise {A B} (f : A → result B) (l : list A) (e : exception) :
  (∀ a e', f a = Raise e' → e' = e) →
  (∃ a, a ∈ l ∧ ∀ b, f a ≠ Ok b) → mapM f l = Raise e.
Proof.
  intros Hf. induction l as [|a l IH]; intros (a0 & Ha0 & Hbad).
  - by apply elem_of_nil in Ha0.
  - cbn. destruct (f a) as [b|e'] eqn:Hfa.
    + cbn. rewrite IH; [done|]. exists a0. split; [|done].
      apply elem_of_cons in Ha0 as [->|]; [|done]. by destruct (Hbad b).
    + cbn. f_equal. by eapply Hf.
Qed.

Lemma mapM_app_Ok {A B} (f : A → result B) (l1 l2 : list A) (k1 k2 : list B) :
  mapM f l1 = Ok k1 → mapM f l2 = Ok k2 → mapM f (l1 ++ l2) = Ok (k1 ++ k2).
Proof.
  rewrite !mapM_Ok_Forall2. apply Forall2_app.
Qed.

Section MadResults_facts.

Import MadResults.

Context {V : Type}.

Lemma merge_results (rs : list (t V)) :
  _results V (merge V rs) = concat (_results V <$> rs).
Proof.
  unfold merge. cbn [_results __init__].
  induction rs as [|r rs IH]; [done|]. cbn. rewrite <- IH. f_equal.
  induction (_results V r) as [|x xs IHx]; [done|]. cbn. by rewrite IHx.
Qed.

Lemma mappings_mapM (self : t V) :
  mappings V self = mapM (fun r => Py.getitem r "mapping") (_results V self).
Proof.
  unfold mappings, results.
  induction (_results V self) as [|r l IH]; [done|]. cbn.
  destruct (Py.getitem r "mapping") as [m|e]; [|done]. cbn.
  destruct (mapM (fun r0 => Py.getitem r0 "mapping") l) as [k|e] eqn:Hk.
  - destruct (mapM _ l) as [k'|e'] eqn:Hk' in IH |- *; cbn in *; [|done].
    by injection IH as <-.
  - destruct (mapM _ l) as [k'|e'] eqn:Hk' in IH |- *; cbn in *; [done|].
    by injection IH as <-.
Qed.

(** X17.  Merging keeps every run, in order: the runs of the first result,
    then those of the second, and so on.  The length of the merge is the
    sum of the lengths, and when every merged result has its mappings,
    the mappings of the merge are theirs one after the other. *)
Theorem merge_in_order (rs : list (t V)) :
  _results V (merge V rs) = concat (_results V <$> rs)
  ∧ __len__ V (merge V rs) = sum_list (__len__ V <$> rs)
  ∧ (∀ ms, mapM (mappings V) rs = Ok ms → mappings V (merge V rs) = Ok (concat ms)).
Proof.
  split; [apply merge_results|]. split.
  - unfold __len__. rewrite merge_results.
    induction rs as [|r rs IH]; [done|]. cbn. by rewrite length_app, IH.
  - intros ms. rewrite mappings_mapM, merge_results. revert ms.
    induction rs as [|r rs IH]; intros ms; cbn.
    + by intros [= <-].
    + intros H. apply bind_Ok in H as (m & Hm & H). apply bind_Ok in H as (ms' & Hms & H).
      injection H as <-. cbn. apply mapM_app_Ok; [by rewrite <- mappings_mapM | by apply IH].
Qed.

(** X18.  The mappings come out exactly when every run has one, and then
    position by position: entry [i] of [mappings] is what run [i] holds
    under 'mapping'.  One run without it makes [results], [mappings] and
    [paths] all raise [KeyError] for 'mapping'; [paths] raises it for
    'path' only when every run has its mapping. *)
Theorem mappings_by_position (self : t V) :
  (∀ ms, mappings V self = Ok ms ↔
         Forall2 (fun r m => r !! "mapping" = Some m) (_results V self) ms)
  ∧ ((∃ r, r ∈ _results V self ∧ r !! "mapping" = None) →
       results V self = Raise (KeyError (Name "mapping"))
       ∧ mappings V self = Raise (KeyError (Name "mapping"))
       ∧ paths V self = Raise (KeyError (Name "mapping")))
  ∧ ((∀ r, r ∈ _results V self → is_Some (r !! "mapping")) →
       (∃ r, r ∈ _results V self ∧ r !! "path" = None) →
       paths V self = Raise (KeyError (Name "path"))).
Proof.
  split; [|split].
  - intros ms. rewrite mappings_mapM, mapM_Ok_Forall2.
    split; intros H; (eapply Forall2_impl; [exact H|]); intros r m; unfold Py.getitem;
      destruct (r !! "mapping"); congruence.
  - intros (r & Hr & Hnone).
    assert (Hres : results V self = Raise (KeyError (Name "mapping"))).
    { unfold results. apply mapM_Raise.
      - intros a e'. unfold Py.getitem. destruct (a !! "mapping"); cbn; congruence.
      - exists r. split; [done|]. intros b. unfold Py.getitem. by rewrite Hnone. }
    split; [done|]. unfold mappings, paths. by rewrite Hres.
  - intros Hall (r & Hr & Hnone). unfold paths.
    destruct (results V self) as [rs|e] eqn:Hres.
    + cbn. apply mapM_Raise.
      * intros [m r'] e'. cbn. unfold Py.getitem. destruct (r' !! "path"); cbn; congruence.
      * unfold results in Hres. apply mapM_Ok_Forall2 in Hres.
        apply list_elem_of_lookup in Hr as [i Hi].
        destruct (Forall2_lookup_l _ _ _ _ _ Hres Hi) as (mr & Hmr & Hf).
        exists mr. split; [by eapply list_elem_of_lookup_2|].
        intros b. apply bind_Ok in Hf as (m & _ & [= <-]). cbn.
        unfold Py.getitem. by rewrite Hnone.
    + exfalso. unfold results in Hres.
      assert (Hok : ∃ k, mapM (fun r => m ← Py.getitem r "mapping"; Ok (m, r))
                      (_results V self) = Ok k).
      { clear Hres Hr. induction (_results V self) as [|r0 l IH]; [by eexists|].
        destruct (Hall r0 (list_elem_of_here _ _)) as [m Hm].
        destruct IH as [k Hk]; [intros r1 H1; apply Hall; by apply list_elem_of_further|].
        exists ((m, r0) :: k). apply mapM_Ok_Forall2. constructor.
        - unfold Py.getitem. by rewrite Hm.
        - by apply mapM_Ok_Forall2. }
      destruct Hok as [k Hk]. congruence.
Qed.

(** X19.  Indexing a merge of two results finds the runs of the first at
    their own indices and the runs of the second after them; an index
    from the sum of the lengths on raises [IndexError]. *)
Theorem merge_getitem (a b : t V) (i : Z) :
  (0 ≤ i < Z.of_nat (__len__ V a) →
     __getitem__ V (merge V [a; b]) i = __getitem__ V a i)
  ∧ (0 ≤ i < Z.of_nat (__len__ V b) →
       __getitem__ V (merge V [a; b]) (Z.of_nat (__len__ V a) + i) = __getitem__ V b i)
  ∧ (Z.of_nat (__len__ V a + __len__ V b) ≤ i →
       __getitem__ V (merge V [a; b]) i = Raise IndexError).
Proof.
  unfold __getitem__, __len__. rewrite merge_results. cbn [fmap list_fmap concat].
  rewrite app_nil_r. unfold PyList.getitem. rewrite length_app.
  split; [|split]; intros Hi.
  - destruct (Z.ltb_spec i 0); [lia|].
    rewrite !(proj2 (andb_true_iff _ _)) by (split; [apply Z.leb_le | apply Z.ltb_lt]; lia).
    rewrite lookup_app_l by lia. done.
  - destruct (Z.ltb_spec (Z.of_nat (length (_results V a)) + i) 0); [lia|].
    destruct (Z.ltb_spec i 0); [lia|].
    rewrite !(proj2 (andb_true_iff _ _)) by (split; [apply Z.leb_le | apply Z.ltb_lt]; lia).
    rewrite lookup_app_r by lia.
    replace (Z.to_nat (Z.of_nat (length (_results V a)) + i) - length (_results V a))%nat
      with (Z.to_nat i) by lia.
    done.
  - destruct (Z.ltb_spec i 0); [lia|].
    replace (i <? _) with false by (symmetry; apply Z.ltb_ge; lia).
    by rewrite andb_false_r.
Qed.

End MadResults_facts.

(** ** The header line of a .fai file *)

Section PyStr_facts.

Import PyStr.

Lemma split_cons (sep : ascii) (s : list ascii) :
  ∃ piece pieces, split sep s = piece :: pieces.
Proof.
  induction s as [|c s (piece & pieces & IH)]; cbn; [by eexists _, _|].
  destruct (decide (c = sep)); [by eexists _, _|]. rewrite IH. by eexists _, _.
Qed.

(** There is one piece more than there are separators. *)
Lemma length_split (sep : ascii) (s : list ascii) :
  length (split sep s) = S (length (filter (fun c => c = sep) s)).
Proof.
  induction s as [|c s IH]; [done|]. cbn [split].
  destruct (decide (c = sep)) as [->|Hne].
  - rewrite filter_cons_True by done. cbn [length]. by rewrite IH.
  - rewrite filter_cons_False by done.
    destruct (split_cons sep s) as (piece & pieces & Hs). rewrite Hs in *. done.
Qed.

Lemma lstrip_head (s : list ascii) : head (lstrip s) ≠ Some " "%char.
Proof.
  induction s as [|c s IH]; [done|]. cbn.
  destruct (decide (c = " "%char)); [done|]. cbn. congruence.
Qed.

Lemma lstrip_last (s : list ascii) :
  lstrip s = [] ∨ last (lstrip s) = last s.
Proof.
  induction s as [|c s IH]; [by left|]. cbn [lstrip].
  destruct (decide (c = " "%char)); [|by right].
  destruct IH as [IH|IH]; [by left|].
  destruct s as [|c0 s0]; [by left|]. right. by rewrite IH.
Qed.

(** A stripped string neither starts nor ends with a space. *)
Lemma strip_ends (s : list ascii) :
  head (strip s) ≠ Some " "%char ∧ last (strip s) ≠ Some " "%char.
Proof.
  unfold strip. rewrite head_reverse, last_reverse. split; [|apply lstrip_head].
  destruct (lstrip_last (reverse (lstrip s))) as [-> | ->]; [done|].
  rewrite last_reverse. apply lstrip_head.
Qed.

End PyStr_facts.

Section Output_facts.

Import Output.

Variable read_text : string → result (list ascii).
Variable read_csv_names : string → nat → list (list ascii) → result DataFrame.

(** X20.  [read_fai_file] needs a third line: a file with fewer than two
    line breaks raises [IndexError] whatever pandas would have read, an
    exception of [open] comes out as it is, and otherwise pandas is
    called with four rows to skip and the names of the third line. *)
Theorem read_fai_file_lines (filename path : string) :
  (∀ e, read_text (Beam.os_path_join path filename) = Raise e →
     read_fai_file read_text read_csv_names filename path = Raise e)
  ∧ (∀ content, read_text (Beam.os_path_join path filename) = Ok content →
       ((newlines content < 2)%nat →
          read_fai_file read_text read_csv_names filename path = Raise IndexError)
       ∧ ((2 ≤ newlines content)%nat →
            ∃ names, headers content = Ok names
              ∧ read_fai_file read_text read_csv_names filename path =
                  read_csv_names (Beam.os_path_join path filename) 4 names)).
Proof.
  split.
  - intros e He. unfold read_fai_file. by rewrite He.
  - intros content Hc. unfold read_fai_file. rewrite Hc. cbn [mbind result_bind].
    unfold headers, PyList.getitem. cbn [Z.ltb Z.compare Z.leb andb].
    pose proof (length_split "010"%char content) as Hlen. fold (newlines content) in Hlen.
    split; intros Hn.
    + replace (2 <? _) with false by (symmetry; apply Z.ltb_ge; lia). done.
    + replace (2 <? _) with true by (symmetry; apply Z.ltb_lt; lia).
      destruct (PyStr.split "010"%char content !! Z.to_nat 2) as [line|] eqn:Hl.
      * cbn [mbind result_bind]. by eexists.
      * apply lookup_ge_None in Hl. lia.
Qed.

(** X21.  The header names: as many as the third line has commas, plus
    one, each free of leading and trailing spaces. *)
Theorem headers_of_third_line (content : list ascii) (names : list (list ascii)) :
  headers content = Ok names →
  ∃ line, PyStr.split "010"%char content !! 2%nat = Some line
    ∧ length names = S (commas line)
    ∧ Forall (fun h => head h ≠ Some " "%char ∧ last h ≠ Some " "%char) names.
Proof.
  unfold headers, PyList.getitem. cbn [Z.ltb Z.compare Z.leb andb].
  destruct (2 <? _); [|done].
  destruct (PyStr.split "010"%char content !! Z.to_nat 2) as [line|] eqn:Hl; [|done].
  cbn [mbind result_bind]. intros [= <-]. exists line. split; [done|]. split.
  - by rewrite length_fmap, length_split.
  - apply Forall_fmap, Forall_forall. intros piece _. apply strip_ends.
Qed.

End Output_facts.

Section Results_examples.

Import MadResults Output Example2.

Lemma merge_in_order_witness :
  _results string (merge string [first_result; second_result]) =
    [run "m0" "/tmp/0"; run "m1" "/tmp/1"; run "m2" "/tmp/2"]
  ∧ __len__ string (merge string [first_result; second_result]) = 3%nat
  ∧ mappings string (merge string [first_result; second_result]) =
      Ok ["m0"; "m1"; "m2"]%string.
Proof.
  destruct (merge_in_order (V := string) [first_result; second_result]) as (H1 & H2 & H3).
  split; [exact H1|]. split; [exact H2|]. exact (H3 [["m0"; "m1"]; ["m2"]]%string eq_refl).
Defined.

Lemma mappings_by_position_witness :
  mappings string first_result = Ok ["m0"; "m1"]%string
  ∧ paths string broken_result = Raise (KeyError (Name "mapping")).
Proof.
  destruct (mappings_by_position (V := string) first_result) as (H1 & _).
  destruct (mappings_by_position (V := string) broken_result) as (_ & H2 & _).
  split.
  - apply H1. repeat constructor.
  - apply H2. exists (<["path" := "/tmp/4"%string]> ∅). split; [|done].
    apply list_elem_of_further, list_elem_of_here.
Defined.

Lemma merge_getitem_witness :
  __getitem__ string (merge string [first_result; second_result]) 2 = Ok (run "m2" "/tmp/2")
  ∧ __getitem__ string (merge string [first_result; second_result]) 3 = Raise IndexError.
Proof.
  destruct (merge_getitem (V := string) first_result second_result 0) as (_ & H2 & _).
  destruct (merge_getitem (V := string) first_result second_result 3) as (_ & _ & H3).
  split.
  - exact (H2 ltac:(cbn; lia)).
  - exact (H3 ltac:(cbn; lia)).
Defined.

Lemma read_fai_file_lines_witness :
  read_fai_file fai_read_text fai_read_csv_names "short.fai" "." = Raise IndexError
  ∧ read_fai_file fai_read_text fai_read_csv_names "none.fai" "." =
      Raise (OSError "No such file or directory")
  ∧ ∃ names, headers fai_content = Ok names
      ∧ read_fai_file fai_read_text fai_read_csv_names "zgoubi.fai" "." =
          fai_read_csv_names "./zgoubi.fai" 4 names.
Proof.
  split; [|split].
  - destruct (read_fai_file_lines fai_read_text fai_read_csv_names "short.fai" ".") as (_ & H).
    destruct (H (String.list_ascii_of_string "KEX, Do-1") eq_refl) as (H1 & _).
    apply H1. vm_compute. lia.
  - destruct (read_fai_file_lines fai_read_text fai_read_csv_names "none.fai" ".") as (H & _).
    by apply H.
  - destruct (read_fai_file_lines fai_read_text fai_read_csv_names "zgoubi.fai" ".") as (_ & H).
    destruct (H fai_content eq_refl) as (_ & H2).
    apply H2. vm_compute. lia.
Defined.

Lemma headers_of_third_line_witness :
  headers fai_content =
    Ok (String.list_ascii_of_string <$> ["KEX"; "Do-1"; "Yo"]%string)
  ∧ ∃ line, PyStr.split "010"%char fai_content !! 2%nat = Some line
      ∧ (3 = S (commas line))%nat.
Proof.
  split; [by vm_compute|].
  destruct (headers_of_third_line fai_content
              (String.list_ascii_of_string <$> ["KEX"; "Do-1"; "Yo"]%string))
    as (line & Hl & Hn & _); [by vm_compute|].
  exists line. split; [exact Hl | exact Hn].
Defined.

End Results_examples.
